(** * Authentication actions and data-access layer

    A shallow embedding of [src/app/actions/auth.ts] (the server actions
    [signin], [signup], [signout] and their two Zod schemas) and of
    [src/lib/dal.ts] ([getCurrentUser], [getUserByEmail], [getIssues]).

    Asynchronous functions are embedded as state-passing computations that
    either complete normally or throw; [await] is sequencing, a rejected
    promise is a throw.  Everything the two files import (the session and
    password helpers of [@/lib/auth], the database handle, Zod's e-mail
    pattern, [redirect]) is an interface the actions are parametric in. *)

From Stdlib Require Import String Ascii List Arith Bool Lia.
From Stdlib Require Import Permutation Sorted.
Import ListNotations.
Open Scope string_scope.
Open Scope list_scope.

Set Implicit Arguments.

(* ================================================================== *)
(** * JavaScript values and completions *)
(* ================================================================== *)

(** A value that may be [undefined] or [null], as the results of
    [findFirst], [result[0] || null] and [createUser] are. *)
Inductive nullable (A : Type) : Type :=
| Undefined
| Null
| Def (a : A).
Arguments Undefined {A}.
Arguments Null {A}.
Arguments Def {A} a.

(** The test [!v] on such a value: objects are truthy. *)
Definition falsy {A} (v : nullable A) : bool :=
  match v with Def _ => false | _ => true end.

(** What [formData.get(name)] can evaluate to, and what the property of a
    plain object can hold. *)
Inductive JsValue : Type :=
| JUndefined
| JNull
| JString (s : string)
| JFile (name : string).

(** Thrown values: an [Error] with its message, and the signal
    [next/navigation] throws to perform a redirect. *)
Inductive JsThrown : Type :=
| JsError (msg : string)
| NextRedirect (url : string).

(** How a statement or an awaited promise completes. *)
Inductive Completion (A : Type) : Type :=
| Normal (a : A)
| Throw (e : JsThrown).
Arguments Normal {A} a.
Arguments Throw {A} e.

(** An effectful computation over a state [S]. *)
Definition Eff (S A : Type) : Type := S -> Completion A * S.

(* ================================================================== *)
(** * The console *)
(* ================================================================== *)

Inductive ConsoleArg : Type :=
| CText (s : string)
| CThrown (e : JsThrown).

Inductive ConsoleEntry : Type :=
| ConsoleLog (args : list ConsoleArg)
| ConsoleError (args : list ConsoleArg).

(** The server-side world of one request: the state behind the imported
    interfaces, and the console output so far (oldest entry first). *)
Record World (Ext : Type) : Type := mkWorld {
  ext : Ext;
  console : list ConsoleEntry
}.
Arguments mkWorld {Ext} ext console.

Definition Action (Ext A : Type) : Type := Eff (World Ext) A.

(* ================================================================== *)
(** * Sequencing, [try]/[catch] and [try]/[finally] *)
(* ================================================================== *)

Definition ret {S A} (a : A) : Eff S A := fun s => (Normal a, s).

Definition throw {S A} (e : JsThrown) : Eff S A := fun s => (Throw e, s).

Definition bind {S A B} (m : Eff S A) (k : A -> Eff S B) : Eff S B :=
  fun s =>
    match m s with
    | (Normal a, s') => k a s'
    | (Throw e, s') => (Throw e, s')
    end.

Declare Scope eff_scope.
Delimit Scope eff_scope with eff.
Notation "x <- m ;; k" := (bind m (fun x => k))
  (at level 61, m at next level, right associativity) : eff_scope.
Notation "m ;; k" := (bind m (fun _ => k))
  (at level 61, right associativity) : eff_scope.
Open Scope eff_scope.

(** [try { body } catch (error) { handler }] *)
Definition try_catch {S A} (body : Eff S A) (handler : JsThrown -> Eff S A)
  : Eff S A :=
  fun s =>
    match body s with
    | (Normal a, s') => (Normal a, s')
    | (Throw e, s') => handler e s'
    end.

(** [try { body } finally { finalizer }]: the finalizer runs on every exit
    of the body; when the finalizer itself throws, its exception replaces
    the completion of the body, whatever that was. *)
Definition try_finally {S A} (body : Eff S A) (finalizer : Eff S unit)
  : Eff S A :=
  fun s =>
    match body s with
    | (c, s') =>
        match finalizer s' with
        | (Normal _, s'') => (c, s'')
        | (Throw e, s'') => (Throw e, s'')
        end
    end.

(** An operation of an imported interface, run inside an action: it sees
    and changes the external state only, never the console. *)
Definition lift {Ext A} (op : Eff Ext A) : Action Ext A :=
  fun w =>
    match op (ext w) with
    | (c, x) => (c, mkWorld x (console w))
    end.

Definition console_log {Ext} (args : list ConsoleArg) : Action Ext unit :=
  fun w => (Normal tt, mkWorld (ext w) (console w ++ [ConsoleLog args])).

Definition console_error {Ext} (args : list ConsoleArg) : Action Ext unit :=
  fun w => (Normal tt, mkWorld (ext w) (console w ++ [ConsoleError args])).

(* ================================================================== *)
(** * Records of the data store *)
(* ================================================================== *)

Definition UserId : Type := nat.

(** Modelled from the spec: the table declarations of [@/db/schema] are not
    among the sources.  A User has a unique system-generated [id], an
    [email] and a [password] holding the one-way hash. *)
Record User : Type := mkUser {
  user_id : UserId;
  user_email : string;
  user_password : string
}.

(** What [getSession] resolves to: the code reads [session.userId]. *)
Record Session : Type := mkSession {
  userId : UserId
}.

(** Modelled from the spec: an Issue has an [id], a [createdAt] timestamp
    and a reference to its owning User. *)
Record Issue : Type := mkIssue {
  issue_id : nat;
  issue_createdAt : nat;
  issue_userId : UserId
}.

(** A row of [db.query.issues.findMany({ with: { user: true } })]: the
    issue and, under the key [user], its related record. *)
Record IssueWithUser : Type := mkIssueWithUser {
  row_issue : Issue;
  row_user : nullable User
}.

(** The options object handed to [findMany]. *)
Inductive IssueColumn : Type := col_id | col_createdAt | col_userId.

Inductive OrderTerm : Type :=
| asc (c : IssueColumn)
| desc (c : IssueColumn).

Record FindManyConfig : Type := mkFindManyConfig {
  with_user : bool;
  orderBy : list OrderTerm
}.

(* ================================================================== *)
(** * The imported interfaces *)
(* ================================================================== *)

(** Modelled from the spec: [@/lib/utils] and [@/lib/auth] are not among the
    sources.  [mockDelay] is the artificial-latency helper, which only lets
    time pass and never rejects; [getSession] is the session store's
    [resolve], which does not throw (a missing, malformed or expired token
    is the valid outcome "no session").  The other helpers and the database
    queries may complete normally or throw.  [redirect] is the function of
    [next/navigation]. *)
Class Platform (Ext : Type) : Type := {
  (* @/lib/utils *)
  mockDelay : nat -> Ext -> Ext;
  (* @/lib/auth *)
  verifyPassword : string -> string -> Eff Ext bool;
  createSession : UserId -> Eff Ext unit;
  createUser : string -> string -> Eff Ext (nullable User);
  deleteSession : Eff Ext unit;
  getSession : Ext -> option Session * Ext;
  (* @/db, through drizzle-orm *)
  db_select_users_where_id : UserId -> Eff Ext (list User);
  db_users_findFirst_where_email : string -> Eff Ext (option User);
  db_issues_findMany : FindManyConfig -> Eff Ext (list IssueWithUser);
  (* next/navigation *)
  redirect : string -> Eff Ext unit
}.

(** What the schemas take from the Zod library: its e-mail pattern and the
    message of its type check on a value that is not a string. *)
Class ZodLib : Type := {
  emailRegex : string -> bool;
  invalid_type_message : JsValue -> string
}.

(* ================================================================== *)
(** * Form data and plain objects *)
(* ================================================================== *)

Inductive FormDataEntryValue : Type :=
| FormString (s : string)
| FormFile (name : string).

Definition FormData : Type := list (string * FormDataEntryValue).

Definition entry_value (v : FormDataEntryValue) : JsValue :=
  match v with
  | FormString s => JString s
  | FormFile n => JFile n
  end.

(** [formData.get(name)]: the first entry of that name, or [null]. *)
Fixpoint FormData_get (formData : FormData) (name : string) : JsValue :=
  match formData with
  | [] => JNull
  | (k, v) :: rest =>
      if String.eqb k name then entry_value v else FormData_get rest name
  end.

(** An object literal, its keys in the order written. *)
Definition JsObject : Type := list (string * JsValue).

Fixpoint prop (o : JsObject) (key : string) : JsValue :=
  match o with
  | [] => JUndefined
  | (k, v) :: rest => if String.eqb k key then v else prop rest key
  end.

(** A [Record<string, string[]>] and the property read on it. *)
Definition FieldErrors : Type := list (string * list string).

Fixpoint lookup {A} (m : list (string * A)) (key : string) : option A :=
  match m with
  | [] => None
  | (k, v) :: rest => if String.eqb k key then Some v else lookup rest key
  end.

(* ================================================================== *)
(** * The part of Zod the two schemas use *)
(* ================================================================== *)

Module Zod.

Record ZodIssue : Type := mkIssue {
  path : list string;
  message : string
}.

(** The three statuses of a parse: aborted (no value), dirty (a value
    and at least one issue) and valid. *)
Inductive ParseReturn (A : Type) : Type :=
| INVALID
| DIRTY (value : A)
| VALID (value : A).
Arguments INVALID {A}.
Arguments DIRTY {A} value.
Arguments VALID {A} value.

(** [z.string()] followed by its checks, in the order chained. *)
Inductive StringCheck : Type :=
| min (n : nat) (msg : string)
| email (msg : string).

Definition ZodString : Type := list StringCheck.

(** [z.object({ key: schema, ... })], and [.refine(check, { message,
    path })] on top of a schema. *)
Definition Shape : Type := list (string * ZodString).

(** The output of an object of strings. *)
Definition Output : Type := list (string * string).

Definition field (data : Output) (key : string) : string :=
  match lookup data key with
  | Some s => s
  | None => EmptyString
  end.

Inductive Schema : Type :=
| object (shape : Shape)
| refine (inner : Schema) (check : Output -> bool)
         (msg : string) (at_path : list string).

Section Parse.
Context {Z : ZodLib}.

(** One check of a string schema: the issue it raises, if any.  A
    failed check does not stop the checks after it. *)
Definition check_issue (p : list string) (s : string) (c : StringCheck)
  : list ZodIssue :=
  match c with
  | min n msg =>
      if Nat.ltb (String.length s) n then [mkIssue p msg] else []
  | email msg =>
      if emailRegex s then [] else [mkIssue p msg]
  end.

(** A value that is not a string aborts with the type issue; a string
    goes through every check. *)
Definition parse_string (schema : ZodString) (p : list string)
           (input : JsValue) : ParseReturn string * list ZodIssue :=
  match input with
  | JString s =>
      match flat_map (check_issue p s) schema with
      | [] => (VALID s, [])
      | issues => (DIRTY s, issues)
      end
  | other => (INVALID, [mkIssue p (invalid_type_message other)])
  end.

(** Merging the result of one key into the result of the others:
    aborted if either is, dirty if either is. *)
Definition merge (key : string) (r : ParseReturn string)
           (rs : ParseReturn Output) : ParseReturn Output :=
  match r, rs with
  | INVALID, _ => INVALID
  | _, INVALID => INVALID
  | VALID v, VALID vs => VALID ((key, v) :: vs)
  | VALID v, DIRTY vs => DIRTY ((key, v) :: vs)
  | DIRTY v, VALID vs => DIRTY ((key, v) :: vs)
  | DIRTY v, DIRTY vs => DIRTY ((key, v) :: vs)
  end.

(** Every key of the shape is parsed, so the issues of all keys are
    collected, in the order of the shape. *)
Fixpoint parse_object (shape : Shape) (data : JsObject)
  : ParseReturn Output * list ZodIssue :=
  match shape with
  | [] => (VALID [], [])
  | (key, schema) :: rest =>
      match parse_string schema [key] (prop data key),
            parse_object rest data with
      | (r, issues), (rs, more) => (merge key r rs, issues ++ more)
      end
  end.

(** A refinement runs unless the schema under it aborted; a failed
    refinement adds its issue after those already raised. *)
Fixpoint parse (schema : Schema) (data : JsObject)
  : ParseReturn Output * list ZodIssue :=
  match schema with
  | object shape => parse_object shape data
  | refine inner check msg at_path =>
      match parse inner data with
      | (INVALID, issues) => (INVALID, issues)
      | (DIRTY v, issues) =>
          (DIRTY v,
           if check v then issues else issues ++ [mkIssue at_path msg])
      | (VALID v, issues) =>
          if check v then (VALID v, issues)
          else (DIRTY v, issues ++ [mkIssue at_path msg])
      end
  end.

Inductive SafeParseReturn : Type :=
| Success (data : Output)
| Failure (error : list ZodIssue).

Definition safeParse (schema : Schema) (data : JsObject)
  : SafeParseReturn :=
  match parse schema data with
  | (VALID v, _) => Success v
  | (_, issues) => Failure issues
  end.

End Parse.

(** [error.flatten()]: issues with an empty path are form errors, the
    others are filed under the first element of their path, each key in
    the order it first occurs. *)
Record Flattened : Type := mkFlattened {
  formErrors : list string;
  fieldErrors : FieldErrors
}.

Fixpoint push (key msg : string) (fe : FieldErrors) : FieldErrors :=
  match fe with
  | [] => [(key, [msg])]
  | (k, msgs) :: rest =>
      if String.eqb k key then (k, msgs ++ [msg]) :: rest
      else (k, msgs) :: push key msg rest
  end.

Definition file_issue (acc : Flattened) (sub : ZodIssue) : Flattened :=
  match path sub with
  | [] => mkFlattened (formErrors acc ++ [message sub]) (fieldErrors acc)
  | key :: _ =>
      mkFlattened (formErrors acc)
                  (push key (message sub) (fieldErrors acc))
  end.

Definition flatten (error : list ZodIssue) : Flattened :=
  fold_left file_issue error (mkFlattened [] []).

End Zod.

(* ================================================================== *)
(** * src/app/actions/auth.ts *)
(* ================================================================== *)

Definition SignInSchema : Zod.Schema :=
  Zod.object
    [ ("email", [Zod.min 1 "Email is required";
                 Zod.email "Invalid email format"]);
      ("password", [Zod.min 1 "Password is required"]) ].

Definition SignUpSchema : Zod.Schema :=
  Zod.refine
    (Zod.object
       [ ("email", [Zod.min 1 "Email is required";
                    Zod.email "Invalid email format"]);
         ("password", [Zod.min 6 "Password must be at least 6 characters"]);
         ("confirmPassword", [Zod.min 1 "Please confirm your password"]) ])
    (fun data =>
       String.eqb (Zod.field data "password")
                  (Zod.field data "confirmPassword"))
    "Passwords don't match"
    ["confirmPassword"].

Record ActionResponse : Type := mkActionResponse {
  success : bool;
  message : string;
  errors : option FieldErrors;
  error : option string
}.

(* ================================================================== *)
(** * src/lib/dal.ts *)
(* ================================================================== *)

Section Dal.
Context {Ext : Type} {P : Platform Ext}.

(** [getSession] is awaited before the [try]; only the query is inside
    it.  [result[0] || null] is the first row, or [null] when there is
    none. *)
Definition getCurrentUser : Action Ext (nullable User) :=
  fun w =>
    match getSession (ext w) with
    | (None, x) => (Normal Null, mkWorld x (console w))
    | (Some session, x) =>
        try_catch
          (result <- lift (db_select_users_where_id (userId session)) ;;
           ret (match result with
                | row :: _ => Def row
                | [] => Null
                end))
          (fun error =>
             console_error [CThrown error] ;;
             ret Null)
          (mkWorld x (console w))
    end.

(** [findFirst] yields the row or [undefined]; the handler yields
    [null]. *)
Definition getUserByEmail (email : string) : Action Ext (nullable User) :=
  try_catch
    (user <- lift (db_users_findFirst_where_email email) ;;
     ret (match user with
          | Some row => Def row
          | None => Undefined
          end))
    (fun error =>
       console_error [CThrown error] ;;
       ret Null).

Definition getIssues : Action Ext (list IssueWithUser) :=
  try_catch
    (result <- lift (db_issues_findMany
                       (mkFindManyConfig true [desc col_createdAt])) ;;
     ret result)
    (fun error =>
       console_error [CThrown error] ;;
       throw (JsError "Failed to fetch issues")).

End Dal.

(* ================================================================== *)
(** * The server actions of src/app/actions/auth.ts *)
(* ================================================================== *)

Section Actions.
Context {Z : ZodLib} {Ext : Type} {P : Platform Ext}.

(** [await mockDelay(ms)] *)
Definition delay (ms : nat) : Action Ext unit :=
  fun w => (Normal tt, mkWorld (mockDelay ms (ext w)) (console w)).

(** The actions read [data.email] and [data.password] after a successful
    parse; these are then the strings the parse returned (lemma
    [safeParse_Success_prop] below), which is what the embedding passes
    on. *)
Definition signin (formData : FormData) : Action Ext ActionResponse :=
  try_catch
    (delay 700 ;;
     let data := [ ("email", FormData_get formData "email");
                   ("password", FormData_get formData "password") ] in
     match Zod.safeParse SignInSchema data with
     | Zod.Failure error =>
         ret (mkActionResponse false "Validation failed"
                (Some (Zod.fieldErrors (Zod.flatten error))) None)
     | Zod.Success parsed =>
         user <- getUserByEmail (Zod.field parsed "email") ;;
         match user with
         | Def user =>
             isPasswordValid <-
               lift (verifyPassword (Zod.field parsed "password")
                                    (user_password user)) ;;
             if negb isPasswordValid then
               ret (mkActionResponse false "Invalid email or password"
                      (Some [("email", ["Invalid email or password"])])
                      None)
             else
               lift (createSession (user_id user)) ;;
               ret (mkActionResponse true "Signed in successfully"
                      None None)
         | _ =>
             ret (mkActionResponse false "Invalid email or password"
                    (Some [("email", ["Invalid email or password"])])
                    None)
         end
     end)
    (fun error =>
       console_log [CThrown error] ;;
       ret (mkActionResponse false "Something went wrong" None None)).

Definition signup (formData : FormData) : Action Ext ActionResponse :=
  try_catch
    (delay 700 ;;
     let data := [ ("email", FormData_get formData "email");
                   ("password", FormData_get formData "password");
                   ("confirmPassword",
                    FormData_get formData "confirmPassword") ] in
     match Zod.safeParse SignUpSchema data with
     | Zod.Failure error =>
         ret (mkActionResponse false "Validation failed"
                (Some (Zod.fieldErrors (Zod.flatten error))) None)
     | Zod.Success parsed =>
         user <- lift (createUser (Zod.field parsed "email")
                                  (Zod.field parsed "password")) ;;
         match user with
         | Def user =>
             lift (createSession (user_id user)) ;;
             ret (mkActionResponse true "Account created successfully"
                    None None)
         | _ =>
             ret (mkActionResponse false "try again" None
                    (Some "failed to create user"))
         end
     end)
    (fun error =>
       console_log [CText "Sign up errors:"; CThrown error] ;;
       ret (mkActionResponse false
              "An error occured while creating your account" None
              (Some "Failed to create account"))).

Definition signout : Action Ext unit :=
  try_finally
    (try_catch
       (lift deleteSession)
       (fun error =>
          console_error [CThrown error] ;;
          throw error))
    (lift (redirect "/signin")).

End Actions.

(** The envelopes the actions return, named for the statements below. *)
Definition validation_failed (error : list Zod.ZodIssue) : ActionResponse :=
  mkActionResponse false "Validation failed"
    (Some (Zod.fieldErrors (Zod.flatten error))) None.

Definition invalid_credentials : ActionResponse :=
  mkActionResponse false "Invalid email or password"
    (Some [("email", ["Invalid email or password"])]) None.

Definition signed_in : ActionResponse :=
  mkActionResponse true "Signed in successfully" None None.

Definition something_went_wrong : ActionResponse :=
  mkActionResponse false "Something went wrong" None None.

Definition try_again : ActionResponse :=
  mkActionResponse false "try again" None (Some "failed to create user").

Definition account_created : ActionResponse :=
  mkActionResponse true "Account created successfully" None None.

Definition account_not_created : ActionResponse :=
  mkActionResponse false "An error occured while creating your account"
    None (Some "Failed to create account").

(** The world after one more console entry. *)
Definition logged {Ext} (entry : ConsoleEntry) (x : Ext)
           (w : World Ext) : World Ext :=
  mkWorld x (console w ++ [entry]).

(** The [errors.email] of an envelope. *)
Definition errors_of (field : string) (r : ActionResponse)
  : option (list string) :=
  match errors r with
  | Some fe => lookup fe field
  | None => None
  end.

(* ================================================================== *)
(** * A reference platform *)
(* ================================================================== *)

(** Modelled from the spec: [@/lib/auth], [@/lib/utils], [@/db] and
    [@/db/schema] are not among the sources.  This module implements the
    interfaces above the way the specification describes them: the Session
    Store ([create], [resolve], [destroy] over a per-client channel that
    holds at most one token), the Credential Hasher, user creation, and a
    data store of User and Issue records queried by equality and ordered
    by timestamp.  Each operation that may fail consults a table of
    outages, so that infrastructure failures can be exercised. *)
Module Ref.

Inductive Op : Type :=
| OpVerifyPassword
| OpCreateSession
| OpCreateUser
| OpDeleteSession
| OpSelectUsers
| OpFindFirstUser
| OpFindManyIssues.

Definition Op_eqb (a b : Op) : bool :=
  match a, b with
  | OpVerifyPassword, OpVerifyPassword
  | OpCreateSession, OpCreateSession
  | OpCreateUser, OpCreateUser
  | OpDeleteSession, OpDeleteSession
  | OpSelectUsers, OpSelectUsers
  | OpFindFirstUser, OpFindFirstUser
  | OpFindManyIssues, OpFindManyIssues => true
  | _, _ => false
  end.

Definition Token : Type := nat.

Record SessionRecord : Type := mkSessionRecord {
  session_userId : UserId;
  issuedAt : nat;
  expiresAt : nat
}.

(** The Credential Hasher: [hash] takes the plaintext and the salt of
    the call, [verify] the plaintext and a digest. *)
Record Hasher : Type := mkHasher {
  hash : string -> nat -> string;
  verify : string -> string -> bool
}.

Record Store : Type := mkStore {
  users : list User;
  issues : list Issue;
  sessions : list (Token * SessionRecord);
  channel : option Token;
  now : nat;
  ttl : nat;
  next_token : Token;
  entropy : nat;
  outages : list (Op * JsThrown)
}.

Fixpoint outage (op : Op) (table : list (Op * JsThrown)) : option JsThrown :=
  match table with
  | [] => None
  | (o, e) :: rest => if Op_eqb o op then Some e else outage op rest
  end.

(** An operation that throws when it is out of service, without
    touching the store. *)
Definition guarded {A} (op : Op) (run : Store -> A * Store)
  : Eff Store A :=
  fun s =>
    match outage op (outages s) with
    | Some e => (Throw e, s)
    | None => match run s with (a, s') => (Normal a, s') end
    end.

(** ** Session Store *)

Fixpoint forget (t : Token) (m : list (Token * SessionRecord))
  : list (Token * SessionRecord) :=
  match m with
  | [] => []
  | (k, r) :: rest =>
      if Nat.eqb k t then forget t rest else (k, r) :: forget t rest
  end.

Fixpoint session_of (t : Token) (m : list (Token * SessionRecord))
  : option SessionRecord :=
  match m with
  | [] => None
  | (k, r) :: rest => if Nat.eqb k t then Some r else session_of t rest
  end.

(** Modelled from the spec: the Session Store's [create(userId)], behind
    [createSession] of [@/lib/auth]: a fresh token, its mapping persisted
    with [issuedAt] and [expiresAt], the token set on the channel over
    whatever it held. *)
Definition create (uid : UserId) (s : Store) : unit * Store :=
  let t := next_token s in
  (tt,
   mkStore (users s) (issues s)
     ((t, mkSessionRecord uid (now s) (now s + ttl s))
        :: forget t (sessions s))
     (Some t) (now s) (ttl s) (S t) (entropy s) (outages s)).

(** Modelled from the spec: the Session Store's [resolve], behind
    [getSession] of [@/lib/auth]: none if the channel is empty, the token
    is unknown or the session is past [expiresAt]; it does not throw. *)
Definition resolve (s : Store) : option Session * Store :=
  (match channel s with
   | None => None
   | Some t =>
       match session_of t (sessions s) with
       | None => None
       | Some r =>
           if Nat.ltb (expiresAt r) (now s) then None
           else Some (mkSession (session_userId r))
       end
   end, s).

(** Modelled from the spec: the Session Store's [destroy()], behind
    [deleteSession] of [@/lib/auth]: removes the mapping of the channel's
    token and clears the channel; on an empty channel it changes
    nothing. *)
Definition destroy (s : Store) : unit * Store :=
  (tt,
   mkStore (users s) (issues s)
     (match channel s with
      | None => sessions s
      | Some t => forget t (sessions s)
      end)
     None (now s) (ttl s) (next_token s) (entropy s) (outages s)).

(** ** Data store *)

Definition select_users_where_id (uid : UserId) (s : Store)
  : list User * Store :=
  (filter (fun u => Nat.eqb (user_id u) uid) (users s), s).

Definition users_findFirst_where_email (email : string) (s : Store)
  : option User * Store :=
  (find (fun u => String.eqb (user_email u) email) (users s), s).

Definition fresh_id (l : list User) : UserId :=
  S (list_max (map user_id l)).

Section WithHasher.
Variable hasher : Hasher.

(** Modelled from the spec: [createUser] of [@/lib/auth]: the password is
    hashed with a salt of its own and the record inserted under a fresh
    id; an e-mail that is already taken creates nothing and yields
    [null] (the specification leaves this case open and asks for a
    fail-closed choice). *)
Definition insert_user (email password : string) (s : Store)
  : nullable User * Store :=
  if existsb (fun u => String.eqb (user_email u) email) (users s) then
    (Null, s)
  else
    let u := mkUser (fresh_id (users s)) email
                    (hash hasher password (entropy s)) in
    (Def u,
     mkStore (users s ++ [u]) (issues s) (sessions s) (channel s)
       (now s) (ttl s) (next_token s) (S (entropy s)) (outages s)).

Definition check_password (plaintext digest : string) (s : Store)
  : bool * Store :=
  (verify hasher plaintext digest, s).
End WithHasher.

(** ** The issues query *)

Definition column (c : IssueColumn) (i : Issue) : nat :=
  match c with
  | col_id => issue_id i
  | col_createdAt => issue_createdAt i
  | col_userId => issue_userId i
  end.

(** [precedes terms a b]: under the [orderBy] list, [a] may come before
    [b]; later terms break the ties of earlier ones. *)
Fixpoint precedes (terms : list OrderTerm) (a b : Issue) : bool :=
  match terms with
  | [] => true
  | asc c :: rest =>
      if Nat.ltb (column c a) (column c b) then true
      else if Nat.ltb (column c b) (column c a) then false
      else precedes rest a b
  | desc c :: rest =>
      if Nat.ltb (column c b) (column c a) then true
      else if Nat.ltb (column c a) (column c b) then false
      else precedes rest a b
  end.

Fixpoint place (terms : list OrderTerm) (x : Issue) (l : list Issue)
  : list Issue :=
  match l with
  | [] => [x]
  | y :: rest =>
      if precedes terms x y then x :: y :: rest
      else y :: place terms x rest
  end.

Fixpoint ordered (terms : list OrderTerm) (l : list Issue) : list Issue :=
  match l with
  | [] => []
  | x :: rest => place terms x (ordered terms rest)
  end.

(** The related record of a many-to-one relation: the user the issue
    refers to, [null] when there is none; [undefined] when the relation
    was not asked for. *)
Definition related_user (cfg : FindManyConfig) (l : list User) (i : Issue)
  : nullable User :=
  if with_user cfg then
    match find (fun u => Nat.eqb (user_id u) (issue_userId i)) l with
    | Some u => Def u
    | None => Null
    end
  else Undefined.

Definition issues_findMany (cfg : FindManyConfig) (s : Store)
  : list IssueWithUser * Store :=
  (map (fun i => mkIssueWithUser i (related_user cfg (users s) i))
       (ordered (orderBy cfg) (issues s)),
   s).

(** ** The instances *)

Definition pass (ms : nat) (s : Store) : Store :=
  mkStore (users s) (issues s) (sessions s) (channel s)
    (now s + ms) (ttl s) (next_token s) (entropy s) (outages s).

(** [redirect] of [next/navigation] never returns: it throws the signal
    the framework catches to send the client to [url]. *)
Definition navigate (url : string) : Eff Store unit :=
  throw (NextRedirect url).

Definition platform (hasher : Hasher) : Platform Store := {|
  mockDelay := pass;
  verifyPassword := fun plaintext digest =>
    guarded OpVerifyPassword (check_password hasher plaintext digest);
  createSession := fun uid => guarded OpCreateSession (create uid);
  createUser := fun email password =>
    guarded OpCreateUser (insert_user hasher email password);
  deleteSession := guarded OpDeleteSession destroy;
  getSession := resolve;
  db_select_users_where_id := fun uid =>
    guarded OpSelectUsers (select_users_where_id uid);
  db_users_findFirst_where_email := fun email =>
    guarded OpFindFirstUser (users_findFirst_where_email email);
  db_issues_findMany := fun cfg =>
    guarded OpFindManyIssues (issues_findMany cfg);
  redirect := navigate
|}.

(** A stand-in for Zod's e-mail pattern: a non-empty local part, [@], and
    a domain with a dot that has a label before it and at least two
    characters after it. *)
Fixpoint after (c : ascii) (s : string) : option string :=
  match s with
  | EmptyString => None
  | String a rest => if Ascii.eqb a c then Some rest else after c rest
  end.

Definition starts_with (c : ascii) (s : string) : bool :=
  match s with
  | EmptyString => false
  | String a _ => Ascii.eqb a c
  end.

Definition email_shaped (s : string) : bool :=
  match s with
  | EmptyString => false
  | _ =>
      negb (starts_with "@" s) &&
      match after "@" s with
      | None => false
      | Some domain =>
          negb (starts_with "." domain) &&
          match after "." domain with
          | None => false
          | Some tld => Nat.leb 2 (String.length tld)
          end
      end
  end.

Definition type_message (v : JsValue) : string :=
  match v with
  | JUndefined => "Required"
  | JNull => "Expected string, received null"
  | JString _ => "Expected string, received string"
  | JFile _ => "Expected string, received object"
  end.

Definition zod : ZodLib := {|
  emailRegex := email_shaped;
  invalid_type_message := type_message
|}.

(** ** Conditions on a store *)

(** No two users share an id. *)
Definition unique_ids (s : Store) : Prop :=
  NoDup (map user_id (users s)).

Definition in_service (op : Op) (s : Store) : Prop :=
  outage op (outages s) = None.

(** Rows ordered by [createdAt], newest first. *)
Definition newest_first (a b : IssueWithUser) : Prop :=
  issue_createdAt (row_issue b) <= issue_createdAt (row_issue a).

(** A row joined with its owner: the related record is a user of the
    store with the id the issue refers to, and is [null] only when the
    store has no such user. *)
Definition joined_with_owner (l : list User) (row : IssueWithUser) : Prop :=
  match row_user row with
  | Def u => In u l /\ user_id u = issue_userId (row_issue row)
  | Null => forall u, In u l -> user_id u <> issue_userId (row_issue row)
  | Undefined => False
  end.

(** ** Worked examples *)

(** A hasher for the examples: the digest is the salt followed by [$]
    and the plaintext.  (It is not one-way; no statement below depends
    on the hasher.) *)
Definition example_hasher : Hasher :=
  mkHasher
    (fun plaintext salt =>
       String (ascii_of_nat (48 + salt)) (String "$" plaintext))
    (fun plaintext digest =>
       match digest with
       | String _ (String "$" rest) => String.eqb rest plaintext
       | _ => false
       end).

Definition alice : User := mkUser 1 "a@b.com" "0$secret1".
Definition bob : User := mkUser 2 "bob@example.org" "1$hunter22".

Definition example_store : Store :=
  mkStore [alice; bob]
          [mkIssue 10 100 1; mkIssue 11 300 2; mkIssue 12 200 1]
          [] None 1000 5000 0 2 [].

Definition with_outage (op : Op) (e : JsThrown) (s : Store) : Store :=
  mkStore (users s) (issues s) (sessions s) (channel s) (now s) (ttl s)
    (next_token s) (entropy s) ((op, e) :: outages s).

Definition example_world : World Store := mkWorld example_store [].

Definition example_platform : Platform Store := platform example_hasher.

(** The example world with one operation out of service. *)
Definition world_without (op : Op) (e : JsThrown) : World Store :=
  mkWorld (with_outage op e example_store) [].

(** The example world with Alice signed in. *)
Definition alice_signed_in : World Store :=
  mkWorld (snd (create 1 example_store)) [].

(** Alice signed in, and the query for users by id out of service. *)
Definition alice_signed_in_without_select (e : JsThrown) : World Store :=
  mkWorld (with_outage OpSelectUsers e (snd (create 1 example_store))) [].

Definition unavailable : JsThrown := JsError "connection refused".

Definition form (email password : string) : FormData :=
  [("email", FormString email); ("password", FormString password)].

Definition signup_form (email password confirmPassword : string)
  : FormData :=
  [("email", FormString email); ("password", FormString password);
   ("confirmPassword", FormString confirmPassword)].

End Ref.

(* ================================================================== *)
(** * Validation: what the two schemas accept and report *)
(* ================================================================== *)

(** The world in which an action continues after its [mockDelay]. *)
Definition delayed {Ext} {P : Platform Ext} (w : World Ext) : World Ext :=
  mkWorld (mockDelay 700 (ext w)) (console w).

(** The fields of the form are strings, as the casts [as string] of the
    actions declare. *)
Definition signin_fields (formData : FormData) (email password : string)
  : Prop :=
  FormData_get formData "email" = JString email /\
  FormData_get formData "password" = JString password.

Definition signup_fields (formData : FormData)
           (email password confirmPassword : string) : Prop :=
  FormData_get formData "email" = JString email /\
  FormData_get formData "password" = JString password /\
  FormData_get formData "confirmPassword" = JString confirmPassword.

(** A well-formed e-mail: non-empty and matched by the e-mail pattern. *)
Definition well_formed_email {Z : ZodLib} (email : string) : Prop :=
  email <> EmptyString /\ emailRegex email = true.

(** The messages filed under each field, by the defects of the submitted
    strings: what [min(1, msg)] reports, the two checks of [email], the
    length check of the signup [password], and the checks that end on
    [confirmPassword]. *)
Definition required (msg : string) (s : string) : list string :=
  match s with
  | EmptyString => [msg]
  | String _ _ => []
  end.

Definition email_messages {Z : ZodLib} (email : string) : list string :=
  required "Email is required" email ++
  (if emailRegex email then [] else ["Invalid email format"]).

Definition password_messages (password : string) : list string :=
  if Nat.ltb (String.length password) 6
  then ["Password must be at least 6 characters"]
  else [].

Definition confirm_messages (password confirmPassword : string)
  : list string :=
  required "Please confirm your password" confirmPassword ++
  (if String.eqb password confirmPassword then []
   else ["Passwords don't match"]).

(** A field appears in [errors] only when it has a message. *)
Definition entry (key : string) (msgs : list string) : FieldErrors :=
  match msgs with
  | [] => []
  | _ :: _ => [(key, msgs)]
  end.

Definition signin_errors {Z : ZodLib} (email password : string)
  : FieldErrors :=
  entry "email" (email_messages email) ++
  entry "password" (required "Password is required" password).

Definition signup_errors {Z : ZodLib}
           (email password confirmPassword : string) : FieldErrors :=
  entry "email" (email_messages email) ++
  entry "password" (password_messages password) ++
  entry "confirmPassword" (confirm_messages password confirmPassword).

Lemma ltb_length_1 (s : string) :
  Nat.ltb (String.length s) 1 = false <-> s <> EmptyString.
Proof.
  destruct s as [|a s]; simpl.
  - split; [discriminate | intros H; now elim H].
  - split; [discriminate | reflexivity].
Qed.

Lemma nonempty_min_1 (s : string) :
  s <> EmptyString -> Nat.ltb (String.length s) 1 = false.
Proof. apply ltb_length_1. Qed.

(** Case analysis on every test the goal is stuck on. *)
Ltac split_tests :=
  repeat match goal with
         | |- context [if ?b then _ else _] => destruct b; simpl
         end.

Section Validation.
Context {Z : ZodLib}.

Lemma SignInSchema_accepts (email password : string) :
  well_formed_email email ->
  password <> EmptyString ->
  Zod.safeParse SignInSchema
    [("email", JString email); ("password", JString password)]
  = Zod.Success [("email", email); ("password", password)].
Proof.
  intros [He Hre] Hp.
  unfold Zod.safeParse, SignInSchema; simpl.
  rewrite (nonempty_min_1 He), Hre, (nonempty_min_1 Hp); simpl.
  reflexivity.
Qed.

(** A successful parse returns the strings the object held: reading
    [data.email] after it is reading the parsed field. *)
Lemma safeParse_Success_prop (email password : JsValue) (parsed : Zod.Output) :
  Zod.safeParse SignInSchema [("email", email); ("password", password)]
  = Zod.Success parsed ->
  email = JString (Zod.field parsed "email") /\
  password = JString (Zod.field parsed "password").
Proof.
  unfold Zod.safeParse, SignInSchema; simpl.
  destruct email, password; simpl; split_tests; try discriminate.
  intros H; injection H as <-. split; reflexivity.
Qed.

Lemma SignUpSchema_accepts (email password : string) :
  well_formed_email email ->
  6 <= String.length password ->
  Zod.safeParse SignUpSchema
    [("email", JString email); ("password", JString password);
     ("confirmPassword", JString password)]
  = Zod.Success [("email", email); ("password", password);
                 ("confirmPassword", password)].
Proof.
  intros [He Hre] Hlen.
  unfold Zod.safeParse, SignUpSchema; simpl.
  rewrite (nonempty_min_1 He), Hre; simpl.
  replace (Nat.ltb (String.length password) 6) with false
    by (symmetry; apply Nat.ltb_ge; exact Hlen).
  replace (Nat.ltb (String.length password) 1) with false
    by (symmetry; apply Nat.ltb_ge; lia).
  simpl. unfold Zod.field; simpl.
  rewrite String.eqb_refl. reflexivity.
Qed.

(** With a well-formed e-mail and a confirmation that repeats it, a
    password shorter than six characters raises exactly the length
    issue on [password]. *)
Lemma SignUpSchema_short_password (email password : string) :
  well_formed_email email ->
  password <> EmptyString ->
  String.length password < 6 ->
  Zod.safeParse SignUpSchema
    [("email", JString email); ("password", JString password);
     ("confirmPassword", JString password)]
  = Zod.Failure
      [Zod.mkIssue ["password"] "Password must be at least 6 characters"].
Proof.
  intros [He Hre] Hp Hlen.
  unfold Zod.safeParse, SignUpSchema; simpl.
  rewrite (nonempty_min_1 He), Hre, (nonempty_min_1 Hp); simpl.
  replace (Nat.ltb (String.length password) 6) with true
    by (symmetry; apply Nat.ltb_lt; exact Hlen).
  simpl. unfold Zod.field; simpl.
  rewrite String.eqb_refl. reflexivity.
Qed.

(** The field errors of a signup whose three fields are strings and
    whose confirmation differs from the password: the mismatch is filed
    under [confirmPassword], after that field's own message if it has
    one, and [password] holds at most its length message. *)
Lemma SignUpSchema_mismatch (email password confirmPassword : string) :
  password <> confirmPassword ->
  exists error,
    Zod.safeParse SignUpSchema
      [("email", JString email); ("password", JString password);
       ("confirmPassword", JString confirmPassword)]
    = Zod.Failure error /\
    (lookup (Zod.fieldErrors (Zod.flatten error)) "confirmPassword"
       = Some ["Passwords don't match"] \/
     lookup (Zod.fieldErrors (Zod.flatten error)) "confirmPassword"
       = Some ["Please confirm your password"; "Passwords don't match"]) /\
    (lookup (Zod.fieldErrors (Zod.flatten error)) "password" = None \/
     lookup (Zod.fieldErrors (Zod.flatten error)) "password"
       = Some ["Password must be at least 6 characters"]).
Proof.
  intros Hneq.
  assert (Hb : String.eqb password confirmPassword = false)
    by (apply String.eqb_neq; exact Hneq).
  unfold Zod.safeParse, SignUpSchema; simpl.
  destruct (Nat.ltb (String.length email) 1), (emailRegex email),
           (Nat.ltb (String.length password) 6),
           (Nat.ltb (String.length confirmPassword) 1);
    simpl; unfold Zod.field; simpl; rewrite Hb; simpl;
    eexists; (split; [reflexivity|]); simpl; split; auto.
Qed.

End Validation.

(* ================================================================== *)
(** * The paths through [signin] *)
(* ================================================================== *)

Ltac run :=
  unfold try_catch, try_finally, bind, lift, ret, throw, delay,
    console_log, console_error, logged, delayed.

Section SigninPaths.
Context {Z : ZodLib} {Ext : Type} {P : Platform Ext}.
Variables (formData : FormData) (email password : string).
Variable w : World Ext.
Hypothesis Hfields : signin_fields formData email password.

Lemma signin_rejects_invalid (error : list Zod.ZodIssue) :
  Zod.safeParse SignInSchema
    [("email", JString email); ("password", JString password)]
  = Zod.Failure error ->
  signin formData w = (Normal (validation_failed error), delayed w).
Proof.
  intros Hparse. destruct Hfields as [He Hp].
  unfold signin. run. rewrite He, Hp, Hparse. reflexivity.
Qed.

Hypothesis Hemail : well_formed_email email.
Hypothesis Hpassword : password <> EmptyString.

(** After validation the action is the lookup and what follows it. *)
Lemma signin_validated :
  signin formData w =
  try_catch
    (user <- getUserByEmail email ;;
     match user with
     | Def user =>
         isPasswordValid <-
           lift (verifyPassword password (user_password user)) ;;
         if negb isPasswordValid then ret invalid_credentials
         else lift (createSession (user_id user)) ;; ret signed_in
     | _ => ret invalid_credentials
     end)
    (fun error =>
       console_log [CThrown error] ;; ret something_went_wrong)
    (delayed w).
Proof.
  destruct Hfields as [He Hp].
  unfold signin. unfold try_catch at 1, bind at 1, delay.
  rewrite He, Hp, (SignInSchema_accepts Hemail Hpassword).
  reflexivity.
Qed.

Lemma signin_lookup_throws (e : JsThrown) (x : Ext) :
  db_users_findFirst_where_email email (ext (delayed w)) = (Throw e, x) ->
  signin formData w
  = (Normal invalid_credentials,
     logged (ConsoleError [CThrown e]) x w).
Proof.
  intros H. rewrite signin_validated.
  unfold getUserByEmail. run. simpl in *. rewrite H. reflexivity.
Qed.

Lemma signin_no_user (x : Ext) :
  db_users_findFirst_where_email email (ext (delayed w))
  = (Normal None, x) ->
  signin formData w = (Normal invalid_credentials, mkWorld x (console w)).
Proof.
  intros H. rewrite signin_validated.
  unfold getUserByEmail. run. simpl in *. rewrite H. reflexivity.
Qed.

Section UserFound.
Variables (user : User) (x1 : Ext).
Hypothesis Hfound :
  db_users_findFirst_where_email email (ext (delayed w))
  = (Normal (Some user), x1).

Lemma signin_wrong_password (x2 : Ext) :
  verifyPassword password (user_password user) x1 = (Normal false, x2) ->
  signin formData w
  = (Normal invalid_credentials, mkWorld x2 (console w)).
Proof.
  intros H. rewrite signin_validated.
  unfold getUserByEmail. run. simpl in *. rewrite Hfound. simpl.
  rewrite H. reflexivity.
Qed.

Lemma signin_verify_throws (e : JsThrown) (x2 : Ext) :
  verifyPassword password (user_password user) x1 = (Throw e, x2) ->
  signin formData w
  = (Normal something_went_wrong,
     logged (ConsoleLog [CThrown e]) x2 w).
Proof.
  intros H. rewrite signin_validated.
  unfold getUserByEmail. run. simpl in *. rewrite Hfound. simpl.
  rewrite H. reflexivity.
Qed.

Lemma signin_session_throws (e : JsThrown) (x2 x3 : Ext) :
  verifyPassword password (user_password user) x1 = (Normal true, x2) ->
  createSession (user_id user) x2 = (Throw e, x3) ->
  signin formData w
  = (Normal something_went_wrong,
     logged (ConsoleLog [CThrown e]) x3 w).
Proof.
  intros H H'. rewrite signin_validated.
  unfold getUserByEmail. run. simpl in *. rewrite Hfound. simpl.
  rewrite H. simpl. rewrite H'. reflexivity.
Qed.

Lemma signin_succeeds (x2 x3 : Ext) :
  verifyPassword password (user_password user) x1 = (Normal true, x2) ->
  createSession (user_id user) x2 = (Normal tt, x3) ->
  signin formData w = (Normal signed_in, mkWorld x3 (console w)).
Proof.
  intros H H'. rewrite signin_validated.
  unfold getUserByEmail. run. simpl in *. rewrite Hfound. simpl.
  rewrite H. simpl. rewrite H'. reflexivity.
Qed.
End UserFound.

End SigninPaths.

Section SigninOutcomes.
Context {Z : ZodLib} {Ext : Type} {P : Platform Ext}.

(** Whatever the form and the world, [signin] returns an envelope. *)
Lemma signin_returns (formData : FormData) (w : World Ext) :
  exists r w', signin formData w = (Normal r, w').
Proof.
  unfold signin, getUserByEmail. run.
  destruct (Zod.safeParse SignInSchema _) as [parsed|error]; simpl;
    [|eauto].
  destruct (db_users_findFirst_where_email _ _) as [[[u|]|e] x1]; simpl;
    eauto.
  destruct (verifyPassword _ _ _) as [[[|]|e] x2]; simpl; eauto.
  destruct (createSession _ _) as [[[]|e] x3]; simpl; eauto.
Qed.

(** A [success: true] envelope of [signin] is reached on one path only:
    the parse succeeded, the lookup found a user, the password verified
    and the session was created for that user's id. *)
Lemma signin_success_inv (formData : FormData) (w w' : World Ext)
      (r : ActionResponse) :
  signin formData w = (Normal r, w') ->
  success r = true ->
  exists email password user x1 x2 x3,
    signin_fields formData email password /\
    db_users_findFirst_where_email email (ext (delayed w))
      = (Normal (Some user), x1) /\
    verifyPassword password (user_password user) x1 = (Normal true, x2) /\
    createSession (user_id user) x2 = (Normal tt, x3) /\
    w' = mkWorld x3 (console w).
Proof.
  unfold signin, getUserByEmail. run.
  destruct (Zod.safeParse SignInSchema _) as [parsed|error] eqn:Hparse;
    simpl; [|intros H; inversion H; subst; discriminate].
  apply safeParse_Success_prop in Hparse. destruct Hparse as [He Hp].
  destruct (db_users_findFirst_where_email _ _) as [[[u|]|e] x1] eqn:Hfind;
    simpl; try (intros H; inversion H; subst; discriminate).
  destruct (verifyPassword _ _ _) as [[[|]|e] x2] eqn:Hverify; simpl;
    try (intros H; inversion H; subst; discriminate).
  destruct (createSession _ _) as [[[]|e] x3] eqn:Hcreate; simpl;
    try (intros H; inversion H; subst; discriminate).
  intros H _. inversion H; subst.
  exists (Zod.field parsed "email"), (Zod.field parsed "password"),
    u, x1, x2, x3.
  unfold signin_fields. auto 10.
Qed.

End SigninOutcomes.

(* ================================================================== *)
(** * The paths through [signup] *)
(* ================================================================== *)

Section SignupPaths.
Context {Z : ZodLib} {Ext : Type} {P : Platform Ext}.
Variables (formData : FormData) (email password confirmPassword : string).
Variable w : World Ext.
Hypothesis Hfields :
  signup_fields formData email password confirmPassword.

Lemma signup_rejects_invalid (error : list Zod.ZodIssue) :
  Zod.safeParse SignUpSchema
    [("email", JString email); ("password", JString password);
     ("confirmPassword", JString confirmPassword)]
  = Zod.Failure error ->
  signup formData w = (Normal (validation_failed error), delayed w).
Proof.
  intros Hparse. destruct Hfields as (He & Hp & Hc).
  unfold signup. run. rewrite He, Hp, Hc, Hparse. reflexivity.
Qed.

Hypothesis Hemail : well_formed_email email.
Hypothesis Hlength : 6 <= String.length password.
Hypothesis Hconfirm : confirmPassword = password.

Lemma signup_validated :
  signup formData w =
  try_catch
    (user <- lift (createUser email password) ;;
     match user with
     | Def user => lift (createSession (user_id user)) ;; ret account_created
     | _ => ret try_again
     end)
    (fun error =>
       console_log [CText "Sign up errors:"; CThrown error] ;;
       ret account_not_created)
    (delayed w).
Proof.
  destruct Hfields as (He & Hp & Hc).
  unfold signup. unfold try_catch at 1, bind at 1, delay.
  rewrite He, Hp, Hc, Hconfirm, (SignUpSchema_accepts password Hemail Hlength).
  reflexivity.
Qed.

Lemma signup_create_throws (e : JsThrown) (x : Ext) :
  createUser email password (ext (delayed w)) = (Throw e, x) ->
  signup formData w
  = (Normal account_not_created,
     logged (ConsoleLog [CText "Sign up errors:"; CThrown e]) x w).
Proof.
  intros H. rewrite signup_validated. run. simpl in *.
  rewrite H. reflexivity.
Qed.

Lemma signup_session_throws (user : User) (e : JsThrown) (x1 x2 : Ext) :
  createUser email password (ext (delayed w)) = (Normal (Def user), x1) ->
  createSession (user_id user) x1 = (Throw e, x2) ->
  signup formData w
  = (Normal account_not_created,
     logged (ConsoleLog [CText "Sign up errors:"; CThrown e]) x2 w).
Proof.
  intros H H'. rewrite signup_validated. run. simpl in *.
  rewrite H. simpl. rewrite H'. reflexivity.
Qed.

Lemma signup_not_created (user : nullable User) (x : Ext) :
  createUser email password (ext (delayed w)) = (Normal user, x) ->
  falsy user = true ->
  signup formData w = (Normal try_again, mkWorld x (console w)).
Proof.
  intros H Hf. rewrite signup_validated. run. simpl in *.
  rewrite H. destruct user; try discriminate; reflexivity.
Qed.

Lemma signup_succeeds (user : User) (x1 x2 : Ext) :
  createUser email password (ext (delayed w)) = (Normal (Def user), x1) ->
  createSession (user_id user) x1 = (Normal tt, x2) ->
  signup formData w = (Normal account_created, mkWorld x2 (console w)).
Proof.
  intros H H'. rewrite signup_validated. run. simpl in *.
  rewrite H. simpl. rewrite H'. reflexivity.
Qed.

End SignupPaths.

Section SignupOutcomes.
Context {Z : ZodLib} {Ext : Type} {P : Platform Ext}.

Lemma signup_returns (formData : FormData) (w : World Ext) :
  exists r w', signup formData w = (Normal r, w').
Proof.
  unfold signup. run.
  destruct (Zod.safeParse SignUpSchema _) as [parsed|error]; simpl;
    [|eauto].
  destruct (createUser _ _ _) as [[[| |u]|e] x1]; simpl; eauto.
  destruct (createSession _ _) as [[[]|e] x2]; simpl; eauto.
Qed.

Lemma signup_success_inv (formData : FormData) (w w' : World Ext)
      (r : ActionResponse) :
  signup formData w = (Normal r, w') ->
  success r = true ->
  exists parsed user x1 x2,
    Zod.safeParse SignUpSchema
      [ ("email", FormData_get formData "email");
        ("password", FormData_get formData "password");
        ("confirmPassword", FormData_get formData "confirmPassword") ]
    = Zod.Success parsed /\
    createUser (Zod.field parsed "email") (Zod.field parsed "password")
               (ext (delayed w))
      = (Normal (Def user), x1) /\
    createSession (user_id user) x1 = (Normal tt, x2) /\
    w' = mkWorld x2 (console w).
Proof.
  unfold signup. run.
  destruct (Zod.safeParse SignUpSchema _) as [parsed|error] eqn:Hparse;
    simpl; [|intros H; inversion H; subst; discriminate].
  destruct (createUser _ _ _) as [[[| |u]|e] x1] eqn:Hcreate; simpl;
    try (intros H; inversion H; subst; discriminate).
  destruct (createSession _ _) as [[[]|e] x2] eqn:Hsession; simpl;
    try (intros H; inversion H; subst; discriminate).
  intros H _. inversion H; subst.
  exists parsed, u, x1, x2. auto.
Qed.

End SignupOutcomes.

(* ================================================================== *)
(** * Properties of the actions, for every platform *)
(* ================================================================== *)

Section ActionProperties.
Context {Z : ZodLib} {Ext : Type} {P : Platform Ext}.

(** C2.  Two signins with well-formed input, one for which the lookup
    finds no user with the e-mail and one for which it finds a user
    whose password does not verify, return the same envelope: the same
    [message], ['Invalid email or password'], and the same
    [errors.email]. *)
Theorem signin_unknown_email_like_wrong_password
        (formA formB : FormData) (emailA passwordA emailB passwordB : string)
        (wA wB : World Ext) (user : User) (xA x1 x2 : Ext) :
  signin_fields formA emailA passwordA ->
  well_formed_email emailA -> passwordA <> EmptyString ->
  signin_fields formB emailB passwordB ->
  well_formed_email emailB -> passwordB <> EmptyString ->
  db_users_findFirst_where_email emailA (ext (delayed wA))
    = (Normal None, xA) ->
  db_users_findFirst_where_email emailB (ext (delayed wB))
    = (Normal (Some user), x1) ->
  verifyPassword passwordB (user_password user) x1 = (Normal false, x2) ->
  exists rA rB,
    fst (signin formA wA) = Normal rA /\
    fst (signin formB wB) = Normal rB /\
    message rA = "Invalid email or password" /\
    message rB = message rA /\
    errors_of "email" rA = Some ["Invalid email or password"] /\
    errors_of "email" rB = errors_of "email" rA /\
    rA = rB.
Proof.
  intros HfA HeA HpA HfB HeB HpB Hnone Hsome Hwrong.
  exists invalid_credentials, invalid_credentials.
  rewrite (signin_no_user wA HfA HeA HpA Hnone).
  rewrite (signin_wrong_password wB HfB HeB HpB Hsome Hwrong).
  repeat split; reflexivity.
Qed.

(** C3, as amended.  When password verification or session creation
    throws, [signin] logs the exception and returns
    [{success:false, message:"Something went wrong"}]; an exception of
    the data-store lookup is caught inside [getUserByEmail], logged
    there, and [signin] returns the 'Invalid email or password'
    envelope; and no invocation of [signin], whatever the form and the
    world, throws. *)
Theorem signin_handles_failures
        (formData : FormData) (email password : string) (w : World Ext) :
  signin_fields formData email password ->
  well_formed_email email -> password <> EmptyString ->
  (forall user x1 e x2,
      db_users_findFirst_where_email email (ext (delayed w))
        = (Normal (Some user), x1) ->
      verifyPassword password (user_password user) x1 = (Throw e, x2) ->
      signin formData w
      = (Normal something_went_wrong,
         logged (ConsoleLog [CThrown e]) x2 w)) /\
  (forall user x1 x2 e x3,
      db_users_findFirst_where_email email (ext (delayed w))
        = (Normal (Some user), x1) ->
      verifyPassword password (user_password user) x1
        = (Normal true, x2) ->
      createSession (user_id user) x2 = (Throw e, x3) ->
      signin formData w
      = (Normal something_went_wrong,
         logged (ConsoleLog [CThrown e]) x3 w)) /\
  (forall e x1,
      db_users_findFirst_where_email email (ext (delayed w))
        = (Throw e, x1) ->
      signin formData w
      = (Normal invalid_credentials,
         logged (ConsoleError [CThrown e]) x1 w)) /\
  (forall form' w0, exists r w', signin form' w0 = (Normal r, w')).
Proof.
  intros Hf He Hp. repeat split.
  - intros user x1 e x2 Hfound Hthrow.
    exact (signin_verify_throws w Hf He Hp Hfound Hthrow).
  - intros user x1 x2 e x3 Hfound Hok Hthrow.
    exact (signin_session_throws w Hf He Hp Hfound Hok Hthrow).
  - intros e x1 Hthrow.
    exact (signin_lookup_throws w Hf He Hp Hthrow).
  - intros form' w0. apply signin_returns.
Qed.

(** C4, as amended.  A signup whose [email], [password] and
    [confirmPassword] fields are all strings and whose password differs
    from its confirmation returns the validation failure, its [errors]
    have an entry for [confirmPassword] that carries the mismatch
    message, and the entry for [password], if there is one, does not
    carry it. *)
Theorem signup_mismatch_on_confirmPassword
        (formData : FormData) (email password confirmPassword : string)
        (w : World Ext) :
  signup_fields formData email password confirmPassword ->
  password <> confirmPassword ->
  exists fe,
    signup formData w
    = (Normal (mkActionResponse false "Validation failed" (Some fe) None),
       delayed w) /\
    (exists msgs, lookup fe "confirmPassword" = Some msgs /\
                  In "Passwords don't match" msgs) /\
    (forall msgs, lookup fe "password" = Some msgs ->
                  ~ In "Passwords don't match" msgs).
Proof.
  intros Hf Hneq.
  destruct (SignUpSchema_mismatch email Hneq)
    as (error & Hparse & Hconfirm & Hpass).
  exists (Zod.fieldErrors (Zod.flatten error)).
  split; [exact (signup_rejects_invalid w Hf Hparse)|].
  split.
  - destruct Hconfirm as [-> | ->]; eexists; (split; [reflexivity|]);
      simpl; auto.
  - intros msgs Hl.
    destruct Hpass as [Hnone | Hsome]; rewrite Hl in *;
      [discriminate|].
    injection Hsome as ->. simpl. intros [H|[]]. discriminate.
Qed.

(** C5.  With a well-formed e-mail and a confirmation equal to the
    password: a password of length 5 makes [signup] return the
    validation failure with the length message on [password]; a
    password of length 6 passes the schema, and [signup] does not
    return the validation failure. *)
Theorem signup_password_length_boundary
        (formData : FormData) (email password : string) (w : World Ext) :
  signup_fields formData email password password ->
  well_formed_email email ->
  (String.length password = 5 ->
   signup formData w
   = (Normal
        (mkActionResponse false "Validation failed"
           (Some [("password",
                   ["Password must be at least 6 characters"])])
           None),
      delayed w)) /\
  (String.length password = 6 ->
   Zod.safeParse SignUpSchema
     [("email", JString email); ("password", JString password);
      ("confirmPassword", JString password)]
   = Zod.Success [("email", email); ("password", password);
                  ("confirmPassword", password)] /\
   exists r w',
     signup formData w = (Normal r, w') /\
     message r <> "Validation failed").
Proof.
  intros Hf He. split; intros Hlen.
  - assert (Hne : password <> EmptyString)
      by (intros ->; discriminate).
    assert (Hlt : String.length password < 6) by lia.
    rewrite (signup_rejects_invalid w Hf
               (SignUpSchema_short_password He Hne Hlt)).
    reflexivity.
  - assert (Hge : 6 <= String.length password) by lia.
    split; [exact (SignUpSchema_accepts password He Hge)|].
    rewrite (signup_validated w Hf He Hge eq_refl). run. simpl.
    destruct (createUser _ _ _) as [[[| |u]|e] x1]; simpl;
      try (do 2 eexists; split; [reflexivity|discriminate]).
    destruct (createSession _ _) as [[[]|e] x2]; simpl;
      do 2 eexists; (split; [reflexivity|discriminate]).
Qed.

End ActionProperties.

(* ================================================================== *)
(** * The paths through [signout] and the data-access functions *)
(* ================================================================== *)

Section SignoutPaths.
Context {Z : ZodLib} {Ext : Type} {P : Platform Ext}.
Variable w : World Ext.

(** On both exits of the [try], [redirect('/signin')] is run in the
    state the [try] left, and a throwing [redirect] decides the
    completion of [signout]. *)
Lemma signout_after_destroy (x : Ext) :
  deleteSession (ext w) = (Normal tt, x) ->
  signout w =
  match redirect "/signin" x with
  | (Normal _, x') => (Normal tt, mkWorld x' (console w))
  | (Throw r, x') => (Throw r, mkWorld x' (console w))
  end.
Proof.
  intros H. unfold signout. run. simpl. rewrite H. simpl.
  destruct (redirect "/signin" x) as [[[]|r] x']; reflexivity.
Qed.

Lemma signout_after_failed_destroy (e : JsThrown) (x : Ext) :
  deleteSession (ext w) = (Throw e, x) ->
  signout w =
  match redirect "/signin" x with
  | (Normal _, x') => (Throw e, logged (ConsoleError [CThrown e]) x' w)
  | (Throw r, x') => (Throw r, logged (ConsoleError [CThrown e]) x' w)
  end.
Proof.
  intros H. unfold signout. run. simpl. rewrite H. simpl.
  destruct (redirect "/signin" x) as [[[]|r] x']; reflexivity.
Qed.

End SignoutPaths.

Section DalPaths.
Context {Ext : Type} {P : Platform Ext}.
Variable w : World Ext.

Lemma getCurrentUser_no_session (x : Ext) :
  getSession (ext w) = (None, x) ->
  getCurrentUser w = (Normal Null, mkWorld x (console w)).
Proof. intros H. unfold getCurrentUser. rewrite H. reflexivity. Qed.

Lemma getCurrentUser_query_fails (session : Session) (x x' : Ext)
      (e : JsThrown) :
  getSession (ext w) = (Some session, x) ->
  db_select_users_where_id (userId session) x = (Throw e, x') ->
  getCurrentUser w
  = (Normal Null, logged (ConsoleError [CThrown e]) x' w).
Proof.
  intros H H'. unfold getCurrentUser. rewrite H. run. simpl.
  rewrite H'. reflexivity.
Qed.

Lemma getCurrentUser_first_row (session : Session) (x x' : Ext)
      (result : list User) :
  getSession (ext w) = (Some session, x) ->
  db_select_users_where_id (userId session) x = (Normal result, x') ->
  getCurrentUser w
  = (Normal (match result with row :: _ => Def row | [] => Null end),
     mkWorld x' (console w)).
Proof.
  intros H H'. unfold getCurrentUser. rewrite H. run. simpl.
  rewrite H'. reflexivity.
Qed.

Lemma getCurrentUser_returns :
  exists user w', getCurrentUser w = (Normal user, w').
Proof.
  unfold getCurrentUser.
  destruct (getSession (ext w)) as [[session|] x]; [|eauto].
  run. simpl.
  destruct (db_select_users_where_id _ _) as [[result|e] x']; simpl;
    eauto.
Qed.

Lemma getUserByEmail_query_fails (email : string) (e : JsThrown) (x : Ext) :
  db_users_findFirst_where_email email (ext w) = (Throw e, x) ->
  getUserByEmail email w
  = (Normal Null, logged (ConsoleError [CThrown e]) x w).
Proof.
  intros H. unfold getUserByEmail. run. rewrite H. reflexivity.
Qed.

Lemma getIssues_query_fails (e : JsThrown) (x : Ext) :
  db_issues_findMany (mkFindManyConfig true [desc col_createdAt]) (ext w)
    = (Throw e, x) ->
  getIssues w
  = (Throw (JsError "Failed to fetch issues"),
     logged (ConsoleError [CThrown e]) x w).
Proof.
  intros H. unfold getIssues. run. rewrite H. reflexivity.
Qed.

Lemma getIssues_query_result (result : list IssueWithUser) (x : Ext) :
  db_issues_findMany (mkFindManyConfig true [desc col_createdAt]) (ext w)
    = (Normal result, x) ->
  getIssues w = (Normal result, mkWorld x (console w)).
Proof.
  intros H. unfold getIssues. run. rewrite H. reflexivity.
Qed.

End DalPaths.

Section DalProperties.
Context {Ext : Type} {P : Platform Ext}.

(** C7.  [getCurrentUser] returns [null] when no session resolves; when
    a session resolves and the query for the user throws, it logs the
    exception and returns [null]; and in no world does it throw. *)
Theorem getCurrentUser_never_throws (w : World Ext) :
  (forall x,
      getSession (ext w) = (None, x) ->
      getCurrentUser w = (Normal Null, mkWorld x (console w))) /\
  (forall session x e x',
      getSession (ext w) = (Some session, x) ->
      db_select_users_where_id (userId session) x = (Throw e, x') ->
      getCurrentUser w
      = (Normal Null, logged (ConsoleError [CThrown e]) x' w)) /\
  (exists user w', getCurrentUser w = (Normal user, w')).
Proof.
  split; [|split].
  - intros x H. exact (getCurrentUser_no_session w H).
  - intros session x e x' H H'.
    exact (getCurrentUser_query_fails w H H').
  - apply getCurrentUser_returns.
Qed.

(** C10.  When the query of [getIssues] throws, [getIssues] logs the
    exception and throws a new [Error('Failed to fetch issues')]; when
    their queries throw, [getUserByEmail] and [getCurrentUser] log the
    exception and return [null]. *)
Theorem getIssues_rethrows_where_lookups_swallow (w : World Ext) :
  (forall e x,
      db_issues_findMany (mkFindManyConfig true [desc col_createdAt])
                         (ext w) = (Throw e, x) ->
      getIssues w
      = (Throw (JsError "Failed to fetch issues"),
         logged (ConsoleError [CThrown e]) x w)) /\
  (forall email e x,
      db_users_findFirst_where_email email (ext w) = (Throw e, x) ->
      getUserByEmail email w
      = (Normal Null, logged (ConsoleError [CThrown e]) x w)) /\
  (forall session x e x',
      getSession (ext w) = (Some session, x) ->
      db_select_users_where_id (userId session) x = (Throw e, x') ->
      getCurrentUser w
      = (Normal Null, logged (ConsoleError [CThrown e]) x' w)).
Proof.
  split; [|split].
  - intros e x H. exact (getIssues_query_fails w H).
  - intros email e x H. exact (getUserByEmail_query_fails w email H).
  - intros session x e x' H H'.
    exact (getCurrentUser_query_fails w H H').
Qed.

End DalProperties.

(* ================================================================== *)
(** * The reference platform: the issues query *)
(* ================================================================== *)

Section IssueOrder.
Variable terms : list OrderTerm.

Lemma place_Permutation (x : Issue) (l : list Issue) :
  Permutation (Ref.place terms x l) (x :: l).
Proof.
  induction l as [|y l IH]; simpl; [reflexivity|].
  destruct (Ref.precedes terms x y); [reflexivity|].
  rewrite IH. apply perm_swap.
Qed.

Lemma ordered_Permutation (l : list Issue) :
  Permutation (Ref.ordered terms l) l.
Proof.
  induction l as [|x l IH]; simpl; [reflexivity|].
  rewrite place_Permutation. now constructor.
Qed.

(** Of two issues, one may come before the other. *)
Lemma precedes_total (a b : Issue) :
  Ref.precedes terms a b = false -> Ref.precedes terms b a = true.
Proof.
  induction terms as [|[c|c] rest IH]; simpl; [discriminate| |].
  - destruct (Nat.ltb (Ref.column c a) (Ref.column c b)) eqn:Hab;
      [discriminate|].
    destruct (Nat.ltb (Ref.column c b) (Ref.column c a)) eqn:Hba;
      [reflexivity|exact IH].
  - destruct (Nat.ltb (Ref.column c b) (Ref.column c a)) eqn:Hba;
      [discriminate|].
    destruct (Nat.ltb (Ref.column c a) (Ref.column c b)) eqn:Hab;
      [reflexivity|exact IH].
Qed.

Lemma place_Sorted (x : Issue) (l : list Issue) :
  Sorted (fun a b => Ref.precedes terms a b = true) l ->
  Sorted (fun a b => Ref.precedes terms a b = true) (Ref.place terms x l).
Proof.
  induction l as [|y l IH]; simpl; intros Hs.
  - repeat constructor.
  - destruct (Ref.precedes terms x y) eqn:Hxy.
    + constructor; [exact Hs|constructor; exact Hxy].
    + apply precedes_total in Hxy.
      inversion Hs as [|? ? Hl Hhd]; subst.
      constructor; [exact (IH Hl)|].
      destruct l as [|z l]; simpl.
      * constructor; exact Hxy.
      * destruct (Ref.precedes terms x z); constructor;
          [exact Hxy|now inversion Hhd].
Qed.

Lemma ordered_Sorted (l : list Issue) :
  Sorted (fun a b => Ref.precedes terms a b = true) (Ref.ordered terms l).
Proof.
  induction l as [|x l IH]; simpl; [constructor|].
  apply place_Sorted, IH.
Qed.

End IssueOrder.

(** Under [desc(issues.createdAt)] an issue may come before another
    exactly when it is not older. *)
Lemma precedes_desc_createdAt (a b : Issue) :
  Ref.precedes [desc col_createdAt] a b = true <->
  issue_createdAt b <= issue_createdAt a.
Proof.
  simpl.
  destruct (Nat.ltb (issue_createdAt b) (issue_createdAt a)) eqn:Hba.
  - apply Nat.ltb_lt in Hba. split; [lia|reflexivity].
  - apply Nat.ltb_ge in Hba.
    destruct (Nat.ltb (issue_createdAt a) (issue_createdAt b)) eqn:Hab.
    + apply Nat.ltb_lt in Hab. split; [discriminate|lia].
    + apply Nat.ltb_ge in Hab. split; [lia|reflexivity].
Qed.

Lemma ordered_newest_first (l : list Issue) :
  StronglySorted (fun a b => issue_createdAt b <= issue_createdAt a)
                 (Ref.ordered [desc col_createdAt] l).
Proof.
  apply Sorted_StronglySorted.
  - intros a b c Hab Hbc. lia.
  - generalize (ordered_Sorted [desc col_createdAt] l).
    generalize (Ref.ordered [desc col_createdAt] l) as sorted.
    induction 1 as [|a sorted Hs IH Hhd]; constructor; [exact IH|].
    destruct Hhd as [|b rest Hab]; constructor.
    apply precedes_desc_createdAt, Hab.
Qed.

(** Attaching the related record does not disturb the order. *)
Lemma rows_newest_first (f : Issue -> nullable User) (l : list Issue) :
  StronglySorted (fun a b => issue_createdAt b <= issue_createdAt a) l ->
  StronglySorted Ref.newest_first
                 (map (fun i => mkIssueWithUser i (f i)) l).
Proof.
  induction 1 as [|a l Hs IH Hall]; simpl; constructor; [exact IH|].
  rewrite Forall_forall in *. intros row Hin.
  apply in_map_iff in Hin. destruct Hin as (i & <- & Hi).
  unfold Ref.newest_first; simpl. apply Hall, Hi.
Qed.

Lemma related_user_joined (l : list User) (i : Issue) :
  Ref.joined_with_owner l
    (mkIssueWithUser i
       (Ref.related_user (mkFindManyConfig true [desc col_createdAt]) l i)).
Proof.
  unfold Ref.joined_with_owner, Ref.related_user; simpl.
  destruct (find _ l) as [u|] eqn:Hfind.
  - apply find_some in Hfind. destruct Hfind as [Hin Heq].
    apply Nat.eqb_eq in Heq. split; assumption.
  - intros u Hin Heq.
    apply (find_none _ _ Hfind) in Hin.
    apply Nat.eqb_neq in Hin. contradiction.
Qed.

Lemma guarded_Normal_inv {A} (op : Ref.Op) (run : Ref.Store -> A * Ref.Store)
      (s s' : Ref.Store) (a : A) :
  Ref.guarded op run s = (Normal a, s') ->
  Ref.in_service op s /\ run s = (a, s').
Proof.
  unfold Ref.guarded, Ref.in_service.
  destruct (Ref.outage op (Ref.outages s)); [discriminate|].
  destruct (run s) as [a' s'']. intros H; inversion H; subst. auto.
Qed.

Lemma guarded_in_service {A} (op : Ref.Op) (run : Ref.Store -> A * Ref.Store)
      (s : Ref.Store) :
  Ref.in_service op s ->
  Ref.guarded op run s = (Normal (fst (run s)), snd (run s)).
Proof.
  unfold Ref.guarded, Ref.in_service. intros ->.
  destruct (run s); reflexivity.
Qed.

(** C9.  On the reference data store, in every state in which the query
    succeeds, [getIssues] returns the stored issues (each of them, once),
    every row joined with the user that owns the issue, ordered by
    [createdAt] with the newest first. *)
Theorem getIssues_joined_newest_first
        (hasher : Ref.Hasher) (w : World Ref.Store)
        (result : list IssueWithUser) (x : Ref.Store) :
  db_issues_findMany (Platform := Ref.platform hasher)
    (mkFindManyConfig true [desc col_createdAt]) (ext w)
  = (Normal result, x) ->
  getIssues (P := Ref.platform hasher) w = (Normal result, w) /\
  Permutation (map row_issue result) (Ref.issues (ext w)) /\
  StronglySorted Ref.newest_first result /\
  Forall (Ref.joined_with_owner (Ref.users (ext w))) result.
Proof.
  intros Hquery.
  pose proof (getIssues_query_result (P := Ref.platform hasher) w Hquery)
    as Hrun.
  simpl in Hquery. apply guarded_Normal_inv in Hquery.
  destruct Hquery as [_ Hrows]. unfold Ref.issues_findMany in Hrows.
  inversion Hrows; subst; clear Hrows.
  split; [|split; [|split]].
  - rewrite Hrun. destruct w; reflexivity.
  - rewrite map_map; simpl. rewrite map_id. apply ordered_Permutation.
  - apply rows_newest_first, ordered_newest_first.
  - apply Forall_forall. intros row Hin.
    apply in_map_iff in Hin. destruct Hin as (i & <- & _).
    apply related_user_joined.
Qed.

(* ================================================================== *)
(** * The reference platform: sessions and the current user *)
(* ================================================================== *)

Lemma resolve_after_create (uid : UserId) (s : Ref.Store) :
  Ref.resolve (snd (Ref.create uid s))
  = (Some (mkSession uid), snd (Ref.create uid s)).
Proof.
  unfold Ref.resolve, Ref.create; simpl.
  rewrite Nat.eqb_refl; simpl.
  replace (Nat.ltb (Ref.now s + Ref.ttl s) (Ref.now s)) with false
    by (symmetry; apply Nat.ltb_ge; lia).
  reflexivity.
Qed.

Lemma resolve_after_destroy (s : Ref.Store) :
  Ref.resolve (snd (Ref.destroy s)) = (None, snd (Ref.destroy s)).
Proof. reflexivity. Qed.

(** [destroy] on a store whose channel is already empty changes
    nothing. *)
Lemma destroy_idempotent (s : Ref.Store) :
  snd (Ref.destroy (snd (Ref.destroy s))) = snd (Ref.destroy s).
Proof. reflexivity. Qed.

Lemma filter_other_ids (l : list User) (uid : UserId) :
  ~ In uid (map user_id l) ->
  filter (fun v => Nat.eqb (user_id v) uid) l = [].
Proof.
  induction l as [|v l IH]; simpl; intros Hnin; [reflexivity|].
  destruct (Nat.eqb_spec (user_id v) uid) as [Heq|Hneq].
  - elim Hnin. left. exact Heq.
  - apply IH. intros Hin. apply Hnin. right. exact Hin.
Qed.

(** With unique ids, selecting by the id of a stored user returns that
    user and no other row. *)
Lemma filter_unique_id (l : list User) (u : User) :
  NoDup (map user_id l) ->
  In u l ->
  filter (fun v => Nat.eqb (user_id v) (user_id u)) l = [u].
Proof.
  induction l as [|v l IH]; simpl; intros Hnd Hin; [contradiction|].
  inversion Hnd as [|? ? Hnin Hnd']; subst.
  destruct Hin as [-> | Hin].
  - rewrite Nat.eqb_refl. f_equal. apply filter_other_ids, Hnin.
  - destruct (Nat.eqb_spec (user_id v) (user_id u)) as [Heq|Hneq].
    + elim Hnin. rewrite Heq. apply in_map, Hin.
    + apply IH; assumption.
Qed.

Lemma fresh_id_is_new (l : list User) :
  ~ In (Ref.fresh_id l) (map user_id l).
Proof.
  unfold Ref.fresh_id. intros Hin.
  assert (Hall : Forall (fun k => k <= list_max (map user_id l))
                        (map user_id l))
    by (apply list_max_le; lia).
  rewrite Forall_forall in Hall. apply Hall in Hin. lia.
Qed.

Section RefSessions.
Variable hasher : Ref.Hasher.
Local Abbreviation P := (Ref.platform hasher).

(** Right after the session store created a session for [uid], the
    current user is the first stored user with that id. *)
Lemma getCurrentUser_after_create (s : Ref.Store) (uid : UserId)
      (u : User) (rest : list User) (out : list ConsoleEntry) :
  Ref.in_service Ref.OpSelectUsers s ->
  filter (fun v => Nat.eqb (user_id v) uid) (Ref.users s) = u :: rest ->
  getCurrentUser (P := P) (mkWorld (snd (Ref.create uid s)) out)
  = (Normal (Def u), mkWorld (snd (Ref.create uid s)) out).
Proof.
  intros Hsvc Hrows.
  rewrite (getCurrentUser_first_row (P := P)
             (mkWorld (snd (Ref.create uid s)) out)
             (session := mkSession uid)
             (x := snd (Ref.create uid s))
             (x' := snd (Ref.create uid s))
             (result := u :: rest)).
  - reflexivity.
  - simpl. apply resolve_after_create.
  - simpl. rewrite guarded_in_service by exact Hsvc.
    simpl. rewrite Hrows. reflexivity.
Qed.

Lemma getCurrentUser_after_destroy (s : Ref.Store)
      (out : list ConsoleEntry) :
  getCurrentUser (P := P) (mkWorld (snd (Ref.destroy s)) out)
  = (Normal Null, mkWorld (snd (Ref.destroy s)) out).
Proof. reflexivity. Qed.

Context {Z : ZodLib}.

Lemma signin_then_current_user
      (formData : FormData) (w w' : World Ref.Store) (r : ActionResponse) :
  Ref.unique_ids (ext w) ->
  Ref.in_service Ref.OpSelectUsers (ext w) ->
  signin (P := P) formData w = (Normal r, w') ->
  success r = true ->
  exists u,
    In u (Ref.users (ext w)) /\
    FormData_get formData "email" = JString (user_email u) /\
    fst (getSession (Platform := P) (ext w'))
      = Some (mkSession (user_id u)) /\
    fst (getCurrentUser (P := P) w') = Normal (Def u).
Proof.
  intros Hunique Hsvc Hrun Hsuccess.
  destruct (@signin_success_inv Z _ P formData w w' r Hrun Hsuccess)
    as (email & password & u & x1 & x2 & x3
        & [He _] & Hfind & Hverify & Hcreate & ->).
  simpl in Hfind, Hverify, Hcreate.
  apply guarded_Normal_inv in Hfind. destruct Hfind as [_ Hfind].
  apply guarded_Normal_inv in Hverify. destruct Hverify as [_ Hverify].
  apply guarded_Normal_inv in Hcreate. destruct Hcreate as [_ Hcreate].
  unfold Ref.users_findFirst_where_email in Hfind.
  unfold Ref.check_password in Hverify.
  inversion Hfind as [[Hu Hx1]]; inversion Hverify as [[Hv Hx2]]; subst.
  clear Hfind Hverify.
  apply find_some in Hu. destruct Hu as [Hin Heq].
  apply String.eqb_eq in Heq.
  assert (Hx3 : x3 = snd (Ref.create (user_id u) (Ref.pass 700 (ext w))))
    by (rewrite Hcreate; reflexivity).
  subst x3. exists u. split; [exact Hin|]. split; [congruence|].
  split.
  - change (fst (Ref.resolve
                   (snd (Ref.create (user_id u) (Ref.pass 700 (ext w)))))
            = Some (mkSession (user_id u))).
    rewrite resolve_after_create. reflexivity.
  - erewrite getCurrentUser_after_create;
      [reflexivity | exact Hsvc | apply filter_unique_id; assumption].
Qed.

End RefSessions.

Lemma SignUp_Success_prop {Z : ZodLib}
      (email password confirmPassword : JsValue) (parsed : Zod.Output) :
  Zod.safeParse SignUpSchema
    [("email", email); ("password", password);
     ("confirmPassword", confirmPassword)]
  = Zod.Success parsed ->
  email = JString (Zod.field parsed "email") /\
  password = JString (Zod.field parsed "password").
Proof.
  unfold Zod.safeParse, SignUpSchema; simpl.
  destruct email, password, confirmPassword; simpl; split_tests;
    try discriminate.
  intros H; injection H as <-. split; reflexivity.
Qed.

Section RefRoundTrip.
Variable hasher : Ref.Hasher.
Context {Z : ZodLib}.
Local Abbreviation P := (Ref.platform hasher).

Lemma signup_then_current_user
      (formData : FormData) (w w' : World Ref.Store) (r : ActionResponse) :
  Ref.in_service Ref.OpSelectUsers (ext w) ->
  signup (P := P) formData w = (Normal r, w') ->
  success r = true ->
  exists u,
    In u (Ref.users (ext w')) /\
    FormData_get formData "email" = JString (user_email u) /\
    fst (getSession (Platform := P) (ext w'))
      = Some (mkSession (user_id u)) /\
    fst (getCurrentUser (P := P) w') = Normal (Def u).
Proof.
  intros Hsvc Hrun Hsuccess.
  destruct (@signup_success_inv Z _ P formData w w' r Hrun Hsuccess)
    as (parsed & u & x1 & x2 & Hparse & Hcreate & Hsession & ->).
  apply SignUp_Success_prop in Hparse. destruct Hparse as [He _].
  simpl in Hcreate, Hsession.
  apply guarded_Normal_inv in Hcreate. destruct Hcreate as [_ Hcreate].
  apply guarded_Normal_inv in Hsession. destruct Hsession as [_ Hsession].
  unfold Ref.insert_user in Hcreate.
  destruct (existsb _ _); [discriminate|].
  inversion Hcreate as [[Hu Hx1]]; clear Hcreate.
  set (u0 := mkUser (Ref.fresh_id (Ref.users (Ref.pass 700 (ext w))))
                    (Zod.field parsed "email")
                    (Ref.hash hasher (Zod.field parsed "password")
                              (Ref.entropy (Ref.pass 700 (ext w))))) in *.
  assert (Hx2 : x2 = snd (Ref.create (user_id u) x1))
    by (rewrite Hsession; reflexivity).
  subst x2. exists u. split; [|split; [|split]].
  - subst x1 u; simpl. apply in_or_app. right. left. reflexivity.
  - subst u; simpl. exact He.
  - change (fst (Ref.resolve (snd (Ref.create (user_id u) x1)))
            = Some (mkSession (user_id u))).
    rewrite resolve_after_create. reflexivity.
  - erewrite getCurrentUser_after_create; [reflexivity | |].
    + subst x1. exact Hsvc.
    + subst x1 u; simpl. rewrite filter_app.
      rewrite filter_other_ids by apply fresh_id_is_new.
      simpl. rewrite Nat.eqb_refl. reflexivity.
Qed.

Lemma signout_then_no_user (w w' : World Ref.Store) (c : Completion unit) :
  Ref.in_service Ref.OpDeleteSession (ext w) ->
  signout (P := P) w = (c, w') ->
  c = Throw (NextRedirect "/signin") /\
  fst (getCurrentUser (P := P) w') = Normal Null.
Proof.
  intros Hsvc Hrun.
  rewrite (@signout_after_destroy _ P w (snd (Ref.destroy (ext w))))
    in Hrun
    by (simpl; rewrite guarded_in_service by exact Hsvc; reflexivity).
  simpl in Hrun. inversion Hrun; subst. split; reflexivity.
Qed.

(** C1.  On the reference session store, from every state of the
    users: after a [signin] or a [signup] that returned [success: true],
    the session resolves to the id handed to [createSession] and
    [getCurrentUser] returns the User record with that id, the one
    whose e-mail was submitted; and after a [signout] whose
    [deleteSession] went through, [getCurrentUser] returns [null],
    whatever the state before.  (For [signin] the ids of the stored
    users are unique, as the data model requires; after [signin] and
    [signup] the query of [getCurrentUser] is answered.) *)
Theorem current_user_follows_session (w : World Ref.Store) :
  (forall formData r w',
      Ref.unique_ids (ext w) ->
      Ref.in_service Ref.OpSelectUsers (ext w) ->
      signin (P := P) formData w = (Normal r, w') ->
      success r = true ->
      exists u,
        In u (Ref.users (ext w)) /\
        FormData_get formData "email" = JString (user_email u) /\
        fst (getSession (Platform := P) (ext w'))
          = Some (mkSession (user_id u)) /\
        fst (getCurrentUser (P := P) w') = Normal (Def u)) /\
  (forall formData r w',
      Ref.in_service Ref.OpSelectUsers (ext w) ->
      signup (P := P) formData w = (Normal r, w') ->
      success r = true ->
      exists u,
        In u (Ref.users (ext w')) /\
        FormData_get formData "email" = JString (user_email u) /\
        fst (getSession (Platform := P) (ext w'))
          = Some (mkSession (user_id u)) /\
        fst (getCurrentUser (P := P) w') = Normal (Def u)) /\
  (forall c w',
      Ref.in_service Ref.OpDeleteSession (ext w) ->
      signout (P := P) w = (c, w') ->
      fst (getCurrentUser (P := P) w') = Normal Null).
Proof.
  split; [|split].
  - intros formData r w' Hunique Hsvc Hrun Hsuccess.
    exact (@signin_then_current_user hasher Z formData w w' r
             Hunique Hsvc Hrun Hsuccess).
  - intros formData r w' Hsvc Hrun Hsuccess.
    exact (@signup_then_current_user formData w w' r Hsvc Hrun Hsuccess).
  - intros c w' Hsvc Hrun.
    exact (proj2 (@signout_then_no_user w w' c Hsvc Hrun)).
Qed.

End RefRoundTrip.

(* ================================================================== *)
(** * The actions on the example world *)
(* ================================================================== *)

Section Examples.
#[local] Existing Instance Ref.zod.
#[local] Existing Instance Ref.example_platform.

Import Ref.

Lemma example_unique_ids : unique_ids example_store.
Proof.
  unfold unique_ids; simpl.
  constructor; [intros [H|[]]; discriminate|].
  constructor; [intros []|constructor].
Defined.

Lemma current_user_follows_session_witness :
  (exists u,
      In u (users example_store) /\
      FormData_get (form "a@b.com" "secret1") "email"
        = JString (user_email u) /\
      fst (getSession
             (ext (snd (signin (form "a@b.com" "secret1") example_world))))
        = Some (mkSession (user_id u)) /\
      fst (getCurrentUser
             (snd (signin (form "a@b.com" "secret1") example_world)))
        = Normal (Def u)) /\
  (exists u,
      In u (users (ext (snd (signup (signup_form "c@d.com" "secret2"
                                                 "secret2")
                                    example_world)))) /\
      FormData_get (signup_form "c@d.com" "secret2" "secret2") "email"
        = JString (user_email u) /\
      fst (getSession
             (ext (snd (signup (signup_form "c@d.com" "secret2" "secret2")
                               example_world))))
        = Some (mkSession (user_id u)) /\
      fst (getCurrentUser
             (snd (signup (signup_form "c@d.com" "secret2" "secret2")
                          example_world)))
        = Normal (Def u)) /\
  fst (getCurrentUser (snd (signout alice_signed_in))) = Normal Null.
Proof.
  split; [|split].
  - apply (proj1 (@current_user_follows_session example_hasher zod
                    example_world)
             (form "a@b.com" "secret1") signed_in).
    + exact example_unique_ids.
    + reflexivity.
    + reflexivity.
    + reflexivity.
  - apply (proj1 (proj2 (@current_user_follows_session example_hasher zod
                           example_world))
             (signup_form "c@d.com" "secret2" "secret2") account_created).
    + reflexivity.
    + reflexivity.
    + reflexivity.
  - apply (proj2 (proj2 (@current_user_follows_session example_hasher zod
                           alice_signed_in))
             (Throw (NextRedirect "/signin"))).
    + reflexivity.
    + reflexivity.
Defined.

Lemma signin_unknown_email_like_wrong_password_witness :
  exists rA rB,
    fst (signin (form "nobody@b.com" "secret1") example_world)
      = Normal rA /\
    fst (signin (form "a@b.com" "wrong") example_world) = Normal rB /\
    message rA = "Invalid email or password" /\
    message rB = message rA /\
    errors_of "email" rA = Some ["Invalid email or password"] /\
    errors_of "email" rB = errors_of "email" rA /\
    rA = rB.
Proof.
  apply (@signin_unknown_email_like_wrong_password zod Store
           example_platform
           (form "nobody@b.com" "secret1") (form "a@b.com" "wrong")
           "nobody@b.com" "secret1" "a@b.com" "wrong"
           example_world example_world alice
           (pass 700 example_store) (pass 700 example_store)
           (pass 700 example_store)).
  - split; reflexivity.
  - split; [discriminate|reflexivity].
  - discriminate.
  - split; reflexivity.
  - split; [discriminate|reflexivity].
  - discriminate.
  - reflexivity.
  - reflexivity.
  - reflexivity.
Defined.

(** C3, as stated, fails: with the lookup of the user by e-mail out of
    service, [signin] does not return "Something went wrong" but the
    'Invalid email or password' envelope. *)
Lemma signin_lookup_failure_reported_as_invalid_credentials :
  db_users_findFirst_where_email "a@b.com"
    (ext (delayed (world_without OpFindFirstUser unavailable)))
  = (Throw unavailable,
     ext (delayed (world_without OpFindFirstUser unavailable))) /\
  fst (signin (form "a@b.com" "secret1")
              (world_without OpFindFirstUser unavailable))
  = Normal invalid_credentials /\
  fst (signin (form "a@b.com" "secret1")
              (world_without OpFindFirstUser unavailable))
  <> Normal something_went_wrong.
Proof.
  split; [reflexivity|]. split; [reflexivity|].
  intros H. vm_compute in H. discriminate.
Qed.

Lemma signin_handles_failures_witness :
  signin (form "a@b.com" "secret1")
         (world_without OpVerifyPassword unavailable)
  = (Normal something_went_wrong,
     logged (ConsoleLog [CThrown unavailable])
            (pass 700 (with_outage OpVerifyPassword unavailable
                                   example_store))
            (world_without OpVerifyPassword unavailable)) /\
  signin (form "a@b.com" "secret1")
         (world_without OpCreateSession unavailable)
  = (Normal something_went_wrong,
     logged (ConsoleLog [CThrown unavailable])
            (pass 700 (with_outage OpCreateSession unavailable
                                   example_store))
            (world_without OpCreateSession unavailable)) /\
  signin (form "a@b.com" "secret1")
         (world_without OpFindFirstUser unavailable)
  = (Normal invalid_credentials,
     logged (ConsoleError [CThrown unavailable])
            (pass 700 (with_outage OpFindFirstUser unavailable
                                   example_store))
            (world_without OpFindFirstUser unavailable)).
Proof.
  assert (Hf : signin_fields (form "a@b.com" "secret1")
                             "a@b.com" "secret1")
    by (split; reflexivity).
  assert (He : well_formed_email "a@b.com")
    by (split; [discriminate|reflexivity]).
  assert (Hp : "secret1" <> EmptyString) by discriminate.
  split; [|split].
  - apply (proj1 (@signin_handles_failures zod Store example_platform
                    (form "a@b.com" "secret1") "a@b.com" "secret1"
                    (world_without OpVerifyPassword unavailable)
                    Hf He Hp)
             alice
             (pass 700 (with_outage OpVerifyPassword unavailable
                                    example_store)));
      reflexivity.
  - apply (proj1 (proj2 (@signin_handles_failures zod Store
                           example_platform
                           (form "a@b.com" "secret1") "a@b.com" "secret1"
                           (world_without OpCreateSession unavailable)
                           Hf He Hp))
             alice
             (pass 700 (with_outage OpCreateSession unavailable
                                    example_store))
             (pass 700 (with_outage OpCreateSession unavailable
                                    example_store)));
      reflexivity.
  - apply (proj1 (proj2 (proj2 (@signin_handles_failures zod Store
                                  example_platform
                                  (form "a@b.com" "secret1")
                                  "a@b.com" "secret1"
                                  (world_without OpFindFirstUser
                                                 unavailable)
                                  Hf He Hp))));
      reflexivity.
Defined.

(** The refinement of [SignUpSchema] needs the object under it: when a
    field of the form is absent, the type check aborts the object and
    only the type issue is reported, even if the two passwords differ. *)
Lemma signup_absent_field_skips_refinement :
  signup [("password", FormString "secret1");
          ("confirmPassword", FormString "secret2")] example_world
  = (Normal
       (mkActionResponse false "Validation failed"
          (Some [("email", ["Expected string, received null"])]) None),
     delayed example_world).
Proof. reflexivity. Qed.

(** C4, as stated, fails: the form below has a password that differs from
    its confirmation, but no [email] entry; [formData.get('email')] is
    [null], the type check aborts the object, the refinement that compares
    the two passwords is not run, and the [errors] of the validation
    failure have no entry for [confirmPassword]. *)
Lemma signup_mismatch_unreported_when_a_field_is_absent :
  FormData_get [("password", FormString "secret1");
                ("confirmPassword", FormString "secret2")] "password"
  = JString "secret1" /\
  FormData_get [("password", FormString "secret1");
                ("confirmPassword", FormString "secret2")] "confirmPassword"
  = JString "secret2" /\
  "secret1" <> "secret2" /\
  exists r,
    signup [("password", FormString "secret1");
            ("confirmPassword", FormString "secret2")] example_world
    = (Normal r, delayed example_world) /\
    message r = "Validation failed" /\
    errors_of "confirmPassword" r = None.
Proof.
  split; [reflexivity|]. split; [reflexivity|]. split; [discriminate|].
  eexists. split; [reflexivity|]. split; reflexivity.
Qed.

Lemma signup_mismatch_on_confirmPassword_witness :
  exists fe,
    signup (signup_form "c@d.com" "secret1" "secret2") example_world
    = (Normal (mkActionResponse false "Validation failed" (Some fe) None),
       delayed example_world) /\
    (exists msgs, lookup fe "confirmPassword" = Some msgs /\
                  In "Passwords don't match" msgs) /\
    (forall msgs, lookup fe "password" = Some msgs ->
                  ~ In "Passwords don't match" msgs).
Proof.
  apply (@signup_mismatch_on_confirmPassword zod Store example_platform
           (signup_form "c@d.com" "secret1" "secret2")
           "c@d.com" "secret1" "secret2" example_world).
  - repeat split; reflexivity.
  - discriminate.
Defined.

Lemma signup_password_length_boundary_witness :
  signup (signup_form "c@d.com" "12345" "12345") example_world
  = (Normal
       (mkActionResponse false "Validation failed"
          (Some [("password", ["Password must be at least 6 characters"])])
          None),
     delayed example_world) /\
  (Zod.safeParse SignUpSchema
     [("email", JString "c@d.com"); ("password", JString "123456");
      ("confirmPassword", JString "123456")]
   = Zod.Success [("email", "c@d.com"); ("password", "123456");
                  ("confirmPassword", "123456")] /\
   exists r w',
     signup (signup_form "c@d.com" "123456" "123456") example_world
     = (Normal r, w') /\
     message r <> "Validation failed").
Proof.
  assert (He : well_formed_email "c@d.com")
    by (split; [discriminate|reflexivity]).
  split.
  - apply (proj1 (@signup_password_length_boundary zod Store
                    example_platform
                    (signup_form "c@d.com" "12345" "12345")
                    "c@d.com" "12345" example_world
                    (conj eq_refl (conj eq_refl eq_refl)) He)).
    reflexivity.
  - apply (proj2 (@signup_password_length_boundary zod Store
                    example_platform
                    (signup_form "c@d.com" "123456" "123456")
                    "c@d.com" "123456" example_world
                    (conj eq_refl (conj eq_refl eq_refl)) He)).
    reflexivity.
Defined.

Lemma getCurrentUser_never_throws_witness :
  getCurrentUser example_world = (Normal Null, example_world) /\
  getCurrentUser (alice_signed_in_without_select unavailable)
  = (Normal Null,
     logged (ConsoleError [CThrown unavailable])
            (ext (alice_signed_in_without_select unavailable))
            (alice_signed_in_without_select unavailable)).
Proof.
  split.
  - apply (proj1 (@getCurrentUser_never_throws Store example_platform
                    example_world) example_store).
    reflexivity.
  - apply (proj1 (proj2 (@getCurrentUser_never_throws Store
                           example_platform
                           (alice_signed_in_without_select unavailable)))
             (mkSession 1)
             (ext (alice_signed_in_without_select unavailable))).
    + reflexivity.
    + reflexivity.
Defined.

Lemma getIssues_joined_newest_first_witness :
  getIssues example_world
  = (Normal [mkIssueWithUser (mkIssue 11 300 2) (Def bob);
             mkIssueWithUser (mkIssue 12 200 1) (Def alice);
             mkIssueWithUser (mkIssue 10 100 1) (Def alice)],
     example_world) /\
  Permutation
    (map row_issue
         [mkIssueWithUser (mkIssue 11 300 2) (Def bob);
          mkIssueWithUser (mkIssue 12 200 1) (Def alice);
          mkIssueWithUser (mkIssue 10 100 1) (Def alice)])
    (issues example_store) /\
  StronglySorted newest_first
    [mkIssueWithUser (mkIssue 11 300 2) (Def bob);
     mkIssueWithUser (mkIssue 12 200 1) (Def alice);
     mkIssueWithUser (mkIssue 10 100 1) (Def alice)] /\
  Forall (joined_with_owner (users example_store))
    [mkIssueWithUser (mkIssue 11 300 2) (Def bob);
     mkIssueWithUser (mkIssue 12 200 1) (Def alice);
     mkIssueWithUser (mkIssue 10 100 1) (Def alice)].
Proof.
  apply (@getIssues_joined_newest_first example_hasher example_world
           [mkIssueWithUser (mkIssue 11 300 2) (Def bob);
            mkIssueWithUser (mkIssue 12 200 1) (Def alice);
            mkIssueWithUser (mkIssue 10 100 1) (Def alice)]
           example_store).
  reflexivity.
Defined.

Lemma getIssues_rethrows_where_lookups_swallow_witness :
  getIssues (world_without OpFindManyIssues unavailable)
  = (Throw (JsError "Failed to fetch issues"),
     logged (ConsoleError [CThrown unavailable])
            (with_outage OpFindManyIssues unavailable example_store)
            (world_without OpFindManyIssues unavailable)) /\
  getUserByEmail "a@b.com" (world_without OpFindFirstUser unavailable)
  = (Normal Null,
     logged (ConsoleError [CThrown unavailable])
            (with_outage OpFindFirstUser unavailable example_store)
            (world_without OpFindFirstUser unavailable)) /\
  getCurrentUser (alice_signed_in_without_select unavailable)
  = (Normal Null,
     logged (ConsoleError [CThrown unavailable])
            (ext (alice_signed_in_without_select unavailable))
            (alice_signed_in_without_select unavailable)).
Proof.
  split; [|split].
  - apply (proj1 (@getIssues_rethrows_where_lookups_swallow Store
                    example_platform
                    (world_without OpFindManyIssues unavailable))).
    reflexivity.
  - apply (proj1 (proj2 (@getIssues_rethrows_where_lookups_swallow Store
                           example_platform
                           (world_without OpFindFirstUser unavailable)))).
    reflexivity.
  - apply (proj2 (proj2 (@getIssues_rethrows_where_lookups_swallow Store
                           example_platform
                           (alice_signed_in_without_select unavailable)))
             (mkSession 1)
             (ext (alice_signed_in_without_select unavailable))).
    + reflexivity.
    + reflexivity.
Defined.

(** C6: the code at the failing input.  With the session store's
    [deleteSession] throwing, [signout] logs the exception and executes
    [throw error]; the [redirect] of the [finally] block then throws its
    own signal, which replaces the pending exception: the caller
    receives the redirect, not the error of the session store. *)
Theorem signout_redirect_replaces_destroy_error :
  deleteSession (ext (world_without OpDeleteSession unavailable))
  = (Throw unavailable, ext (world_without OpDeleteSession unavailable)) /\
  signout (world_without OpDeleteSession unavailable)
  = (Throw (NextRedirect "/signin"),
     logged (ConsoleError [CThrown unavailable])
            (ext (world_without OpDeleteSession unavailable))
            (world_without OpDeleteSession unavailable)) /\
  fst (signout (world_without OpDeleteSession unavailable))
  <> Throw unavailable.
Proof.
  split; [reflexivity|]. split; [reflexivity|].
  intros H. vm_compute in H. discriminate.
Qed.

(** C8: the code at the failing input.  With user creation throwing
    after a successful validation, [signup] returns an envelope whose
    [error] is "Failed to create account" and whose [message] is spelt
    "An error occured while creating your account", which is not the
    message "An error occurred while creating your account". *)
Theorem signup_failure_message_misspelt :
  createUser "c@d.com" "secret1"
    (ext (delayed (world_without OpCreateUser unavailable)))
  = (Throw unavailable,
     ext (delayed (world_without OpCreateUser unavailable))) /\
  signup (signup_form "c@d.com" "secret1" "secret1")
         (world_without OpCreateUser unavailable)
  = (Normal
       (mkActionResponse false
          "An error occured while creating your account" None
          (Some "Failed to create account")),
     logged (ConsoleLog [CText "Sign up errors:"; CThrown unavailable])
            (ext (delayed (world_without OpCreateUser unavailable)))
            (world_without OpCreateUser unavailable)) /\
  fst (signup (signup_form "c@d.com" "secret1" "secret1")
              (world_without OpCreateUser unavailable))
  <> Normal
       (mkActionResponse false
          "An error occurred while creating your account" None
          (Some "Failed to create account")).
Proof.
  split; [reflexivity|]. split; [reflexivity|].
  intros H. vm_compute in H. discriminate.
Qed.

End Examples.

(* ================================================================== *)
(** * More on validation: acceptance and the reported messages *)
(* ================================================================== *)

(** Case analysis on every test, keeping what each case decided. *)
Ltac split_tests_eqn :=
  repeat match goal with
         | |- context [if ?b then _ else _] => destruct b eqn:?; simpl
         end.

Section ValidationReports.
Context {Z : ZodLib}.

Lemma SignIn_Success_inv (email password : JsValue) (parsed : Zod.Output) :
  Zod.safeParse SignInSchema [("email", email); ("password", password)]
  = Zod.Success parsed ->
  exists e p,
    email = JString e /\ password = JString p /\
    well_formed_email e /\ p <> EmptyString /\
    parsed = [("email", e); ("password", p)].
Proof.
  unfold Zod.safeParse, SignInSchema; simpl.
  destruct email as [| |e|f], password as [| |p|f']; simpl;
    split_tests_eqn; try discriminate.
  intros H; injection H as <-. exists e, p.
  repeat split; try reflexivity; try assumption;
    apply ltb_length_1; assumption.
Qed.

Lemma SignUp_Success_inv (email password confirmPassword : JsValue)
      (parsed : Zod.Output) :
  Zod.safeParse SignUpSchema
    [("email", email); ("password", password);
     ("confirmPassword", confirmPassword)]
  = Zod.Success parsed ->
  exists e p,
    email = JString e /\ password = JString p /\
    confirmPassword = JString p /\
    well_formed_email e /\ 6 <= String.length p /\
    parsed = [("email", e); ("password", p); ("confirmPassword", p)].
Proof.
  unfold Zod.safeParse, SignUpSchema; simpl.
  destruct email as [| |e|f], password as [| |p|f'],
           confirmPassword as [| |c|f'']; simpl;
    split_tests_eqn; try discriminate.
  intros H; injection H as <-.
  match goal with
  | Heq : String.eqb _ _ = true |- _ =>
      unfold Zod.field in Heq; simpl in Heq; apply String.eqb_eq in Heq
  end.
  subst c. exists e, p.
  repeat split; try reflexivity; try assumption.
  - apply ltb_length_1; assumption.
  - apply Nat.ltb_ge; assumption.
Qed.

(** X3.  [SignInSchema] accepts an object exactly when its [email] is a
    non-empty string the e-mail pattern matches and its [password] is a
    non-empty string; the parsed data are then those two strings. *)
Theorem SignInSchema_accepts_iff
        (email password : JsValue) (parsed : Zod.Output) :
  Zod.safeParse SignInSchema [("email", email); ("password", password)]
  = Zod.Success parsed
  <->
  exists e p,
    email = JString e /\ password = JString p /\
    well_formed_email e /\ p <> EmptyString /\
    parsed = [("email", e); ("password", p)].
Proof.
  split.
  - apply SignIn_Success_inv.
  - intros (e & p & -> & -> & He & Hp & ->).
    apply SignInSchema_accepts; assumption.
Qed.

(** X4.  [SignUpSchema] accepts an object exactly when its [email] is a
    non-empty string the e-mail pattern matches, its [password] is a
    string of at least six characters and its [confirmPassword] is that
    same string. *)
Theorem SignUpSchema_accepts_iff
        (email password confirmPassword : JsValue) (parsed : Zod.Output) :
  Zod.safeParse SignUpSchema
    [("email", email); ("password", password);
     ("confirmPassword", confirmPassword)]
  = Zod.Success parsed
  <->
  exists e p,
    email = JString e /\ password = JString p /\
    confirmPassword = JString p /\
    well_formed_email e /\ 6 <= String.length p /\
    parsed = [("email", e); ("password", p); ("confirmPassword", p)].
Proof.
  split.
  - apply SignUp_Success_inv.
  - intros (e & p & -> & -> & -> & He & Hp & ->).
    apply SignUpSchema_accepts; assumption.
Qed.

(** The field errors of a rejected signin whose fields are strings. *)
Lemma SignIn_reports (email password : string) :
  signin_errors email password <> [] ->
  exists error,
    Zod.safeParse SignInSchema
      [("email", JString email); ("password", JString password)]
    = Zod.Failure error /\
    Zod.fieldErrors (Zod.flatten error) = signin_errors email password.
Proof.
  unfold signin_errors, email_messages, Zod.safeParse, SignInSchema.
  destruct email as [|a e], password as [|b p]; simpl;
    destruct (emailRegex _); simpl; intros Hne;
    try (now elim Hne);
    eexists; (split; [reflexivity|]); reflexivity.
Qed.

(** The field errors of a rejected signup whose fields are strings. *)
Lemma SignUp_reports (email password confirmPassword : string) :
  signup_errors email password confirmPassword <> [] ->
  exists error,
    Zod.safeParse SignUpSchema
      [("email", JString email); ("password", JString password);
       ("confirmPassword", JString confirmPassword)]
    = Zod.Failure error /\
    Zod.fieldErrors (Zod.flatten error)
    = signup_errors email password confirmPassword.
Proof.
  unfold signup_errors, email_messages, password_messages, confirm_messages,
    Zod.safeParse, SignUpSchema.
  destruct email as [|a e], confirmPassword as [|b c]; simpl;
    destruct (emailRegex _); simpl;
    destruct (Nat.ltb (String.length password) 6); simpl;
    unfold Zod.field; simpl;
    destruct (String.eqb password _); simpl; intros Hne;
    try (now elim Hne);
    eexists; (split; [reflexivity|]); reflexivity.
Qed.

End ValidationReports.

(* ================================================================== *)
(** * More on the actions, for every platform *)
(* ================================================================== *)

Section ValidationFailures.
Context {Z : ZodLib}.

Lemma SignIn_Failure_reports (email password : JsValue)
      (error : list Zod.ZodIssue) :
  Zod.safeParse SignInSchema [("email", email); ("password", password)]
  = Zod.Failure error ->
  Zod.fieldErrors (Zod.flatten error) <> [].
Proof.
  unfold Zod.safeParse, SignInSchema; simpl.
  destruct email, password; simpl; split_tests;
    intros H; inversion H; subst; discriminate.
Qed.

Lemma SignUp_Failure_reports (email password confirmPassword : JsValue)
      (error : list Zod.ZodIssue) :
  Zod.safeParse SignUpSchema
    [("email", email); ("password", password);
     ("confirmPassword", confirmPassword)]
  = Zod.Failure error ->
  Zod.fieldErrors (Zod.flatten error) <> [].
Proof.
  unfold Zod.safeParse, SignUpSchema; simpl.
  destruct email, password, confirmPassword; simpl; split_tests;
    intros H; inversion H; subst; discriminate.
Qed.

End ValidationFailures.

Section MoreActionProperties.
Context {Z : ZodLib} {Ext : Type} {P : Platform Ext}.

(** X1.  A signin whose fields are strings with a defect returns the
    validation failure right after the delay, and its [errors] hold, per
    field and in the order of the schema, exactly the messages of the
    checks that failed: "Email is required" for an empty e-mail, "Invalid
    email format" when the pattern does not match, "Password is required"
    for an empty password; a field without a failed check is absent. *)
Theorem signin_reports_field_errors
        (formData : FormData) (email password : string) (w : World Ext) :
  signin_fields formData email password ->
  signin_errors email password <> [] ->
  signin formData w
  = (Normal (mkActionResponse false "Validation failed"
               (Some (signin_errors email password)) None),
     delayed w).
Proof.
  intros Hf Hne.
  destruct (SignIn_reports email password Hne) as (error & Hparse & Hfe).
  rewrite (signin_rejects_invalid w Hf Hparse).
  unfold validation_failed. rewrite Hfe. reflexivity.
Qed.

(** X2.  A signup whose fields are strings with a defect returns the
    validation failure right after the delay, and its [errors] hold, per
    field and in the order of the schema, exactly the messages of the
    checks that failed; on [confirmPassword] the message of an empty
    confirmation comes before the mismatch message, and a short password
    and a mismatch are reported together. *)
Theorem signup_reports_field_errors
        (formData : FormData) (email password confirmPassword : string)
        (w : World Ext) :
  signup_fields formData email password confirmPassword ->
  signup_errors email password confirmPassword <> [] ->
  signup formData w
  = (Normal (mkActionResponse false "Validation failed"
               (Some (signup_errors email password confirmPassword)) None),
     delayed w).
Proof.
  intros Hf Hne.
  destruct (SignUp_reports email password confirmPassword Hne)
    as (error & Hparse & Hfe).
  rewrite (signup_rejects_invalid w Hf Hparse).
  unfold validation_failed. rewrite Hfe. reflexivity.
Qed.

(** X5.  A signin returns [success: true] only when the form held a
    well-formed e-mail and a non-empty password, the lookup by that
    e-mail found a user, [verifyPassword] returned true for the submitted
    password against that user's stored password, and [createSession]
    completed for that user's id; the envelope is then the
    "Signed in successfully" one and nothing was logged. *)
Theorem signin_success_means_verified
        (formData : FormData) (w w' : World Ext) (r : ActionResponse) :
  signin formData w = (Normal r, w') ->
  success r = true ->
  exists email password user x1 x2 x3,
    signin_fields formData email password /\
    well_formed_email email /\ password <> EmptyString /\
    db_users_findFirst_where_email email (ext (delayed w))
      = (Normal (Some user), x1) /\
    verifyPassword password (user_password user) x1 = (Normal true, x2) /\
    createSession (user_id user) x2 = (Normal tt, x3) /\
    w' = mkWorld x3 (console w) /\
    r = mkActionResponse true "Signed in successfully" None None.
Proof.
  unfold signin, getUserByEmail. run.
  destruct (Zod.safeParse SignInSchema _) as [parsed|error] eqn:Hparse;
    simpl; [|intros H; inversion H; subst; discriminate].
  apply SignIn_Success_inv in Hparse.
  destruct Hparse as (e & p & He & Hp & Hwf & Hne & ->).
  unfold Zod.field; simpl.
  destruct (db_users_findFirst_where_email _ _) as [[[u|]|err] x1] eqn:Hfind;
    simpl; try (intros H; inversion H; subst; discriminate).
  destruct (verifyPassword _ _ _) as [[[|]|err] x2] eqn:Hverify; simpl;
    try (intros H; inversion H; subst; discriminate).
  destruct (createSession _ _) as [[[]|err] x3] eqn:Hcreate; simpl;
    try (intros H; inversion H; subst; discriminate).
  intros H _. inversion H; subst.
  exists e, p, u, x1, x2, x3. unfold signin_fields. auto 10.
Qed.

(** X6.  A signup returns [success: true] only when the form held a
    well-formed e-mail, a password of at least six characters and a
    confirmation equal to it, [createUser] returned a user for that
    e-mail and password, and [createSession] completed for that user's
    id; the envelope is then the "Account created successfully" one and
    nothing was logged. *)
Theorem signup_success_means_created
        (formData : FormData) (w w' : World Ext) (r : ActionResponse) :
  signup formData w = (Normal r, w') ->
  success r = true ->
  exists email password user x1 x2,
    signup_fields formData email password password /\
    well_formed_email email /\ 6 <= String.length password /\
    createUser email password (ext (delayed w)) = (Normal (Def user), x1) /\
    createSession (user_id user) x1 = (Normal tt, x2) /\
    w' = mkWorld x2 (console w) /\
    r = mkActionResponse true "Account created successfully" None None.
Proof.
  unfold signup. run.
  destruct (Zod.safeParse SignUpSchema _) as [parsed|error] eqn:Hparse;
    simpl; [|intros H; inversion H; subst; discriminate].
  apply SignUp_Success_inv in Hparse.
  destruct Hparse as (e & p & He & Hp & Hc & Hwf & Hlen & ->).
  unfold Zod.field; simpl.
  destruct (createUser _ _ _) as [[[| |u]|err] x1] eqn:Hcreate; simpl;
    try (intros H; inversion H; subst; discriminate).
  destruct (createSession _ _) as [[[]|err] x2] eqn:Hsession; simpl;
    try (intros H; inversion H; subst; discriminate).
  intros H _. inversion H; subst.
  exists e, p, u, x1, x2. unfold signup_fields. auto 10.
Qed.

(** X7.  Every signin, whatever the form and the world, returns one of
    four envelopes: the validation failure, with at least one field error
    and no operation run but the delay; 'Invalid email or password', with
    nothing logged or the failed lookup logged by [console.error];
    "Something went wrong", always with the exception logged by
    [console.log]; or "Signed in successfully", with nothing logged. *)
Theorem signin_outcomes (formData : FormData) (w : World Ext) :
  exists r w',
    signin formData w = (Normal r, w') /\
    ((exists error,
         r = validation_failed error /\
         Zod.fieldErrors (Zod.flatten error) <> [] /\
         w' = delayed w) \/
     (r = invalid_credentials /\
      (console w' = console w \/
       exists e, console w' = console w ++ [ConsoleError [CThrown e]])) \/
     (r = something_went_wrong /\
      exists e, console w' = console w ++ [ConsoleLog [CThrown e]]) \/
     (r = signed_in /\ console w' = console w)).
Proof.
  unfold signin, getUserByEmail. run.
  destruct (Zod.safeParse SignInSchema _) as [parsed|error] eqn:Hparse;
    simpl.
  - destruct (db_users_findFirst_where_email _ _) as [[[u|]|e] x1]; simpl.
    + destruct (verifyPassword _ _ _) as [[[|]|e] x2]; simpl.
      * destruct (createSession _ _) as [[[]|e] x3]; simpl;
          do 2 eexists; (split; [reflexivity|]).
        -- right; right; right. split; reflexivity.
        -- right; right; left. split; [reflexivity|]. eexists; reflexivity.
      * do 2 eexists; (split; [reflexivity|]).
        right; left. split; [reflexivity|]. left; reflexivity.
      * do 2 eexists; (split; [reflexivity|]).
        right; right; left. split; [reflexivity|]. eexists; reflexivity.
    + do 2 eexists; (split; [reflexivity|]).
      right; left. split; [reflexivity|]. left; reflexivity.
    + do 2 eexists; (split; [reflexivity|]).
      right; left. split; [reflexivity|]. right. eexists; reflexivity.
  - do 2 eexists; (split; [reflexivity|]). left. exists error.
    split; [reflexivity|]. split; [|reflexivity].
    exact (SignIn_Failure_reports _ _ Hparse).
Qed.

(** X8.  Every signup, whatever the form and the world, returns (it never
    throws) one of four envelopes: the validation failure, with at least
    one field error and no operation run but the delay; "try again", with
    nothing logged; the account-creation failure, always with
    "Sign up errors:" and the exception logged by [console.log]; or
    "Account created successfully", with nothing logged. *)
Theorem signup_outcomes (formData : FormData) (w : World Ext) :
  exists r w',
    signup formData w = (Normal r, w') /\
    ((exists error,
         r = validation_failed error /\
         Zod.fieldErrors (Zod.flatten error) <> [] /\
         w' = delayed w) \/
     (r = try_again /\ console w' = console w) \/
     (r = account_not_created /\
      exists e,
        console w'
        = console w ++ [ConsoleLog [CText "Sign up errors:"; CThrown e]]) \/
     (r = account_created /\ console w' = console w)).
Proof.
  unfold signup. run.
  destruct (Zod.safeParse SignUpSchema _) as [parsed|error] eqn:Hparse;
    simpl.
  - destruct (createUser _ _ _) as [[[| |u]|e] x1]; simpl.
    + do 2 eexists; (split; [reflexivity|]).
      right; left. split; reflexivity.
    + do 2 eexists; (split; [reflexivity|]).
      right; left. split; reflexivity.
    + destruct (createSession _ _) as [[[]|e] x2]; simpl;
        do 2 eexists; (split; [reflexivity|]).
      * right; right; right. split; reflexivity.
      * right; right; left. split; [reflexivity|]. eexists; reflexivity.
    + do 2 eexists; (split; [reflexivity|]).
      right; right; left. split; [reflexivity|]. eexists; reflexivity.
  - do 2 eexists; (split; [reflexivity|]). left. exists error.
    split; [reflexivity|]. split; [|reflexivity].
    exact (SignUp_Failure_reports _ _ _ Hparse).
Qed.

End MoreActionProperties.

Section MorePaths.
Context {Z : ZodLib} {Ext : Type} {P : Platform Ext}.

(** X9.  In a signup that passed validation, an exception of
    [createUser], or of [createSession] after the user was created, is
    logged by [console.log] after the text "Sign up errors:" and turned
    into the envelope with the message "An error occured while creating
    your account" and the error "Failed to create account"; in the second
    case the world is the one in which the user has been created. *)
Theorem signup_reports_failure_after_validation
        (formData : FormData) (email password : string) (w : World Ext) :
  signup_fields formData email password password ->
  well_formed_email email ->
  6 <= String.length password ->
  (forall e x,
      createUser email password (ext (delayed w)) = (Throw e, x) ->
      signup formData w
      = (Normal
           (mkActionResponse false
              "An error occured while creating your account" None
              (Some "Failed to create account")),
         logged (ConsoleLog [CText "Sign up errors:"; CThrown e]) x w)) /\
  (forall user x1 e x2,
      createUser email password (ext (delayed w))
        = (Normal (Def user), x1) ->
      createSession (user_id user) x1 = (Throw e, x2) ->
      signup formData w
      = (Normal
           (mkActionResponse false
              "An error occured while creating your account" None
              (Some "Failed to create account")),
         logged (ConsoleLog [CText "Sign up errors:"; CThrown e]) x2 w)).
Proof.
  intros Hf He Hlen. split.
  - intros e x Hthrow.
    exact (signup_create_throws w Hf He Hlen eq_refl Hthrow).
  - intros user x1 e x2 Hcreated Hthrow.
    exact (signup_session_throws w Hf He Hlen eq_refl Hcreated Hthrow).
Qed.

(** X10.  In a signup that passed validation, when [createUser] returns
    [null] or [undefined] the result is
    [{success:false, message:'try again', error:'failed to create user'}];
    the world is the one [createUser] left, so no session is created,
    and nothing is logged. *)
Theorem signup_without_user_asks_to_try_again
        (formData : FormData) (email password : string) (w : World Ext)
        (user : nullable User) (x : Ext) :
  signup_fields formData email password password ->
  well_formed_email email ->
  6 <= String.length password ->
  createUser email password (ext (delayed w)) = (Normal user, x) ->
  user = Null \/ user = Undefined ->
  signup formData w
  = (Normal (mkActionResponse false "try again" None
               (Some "failed to create user")),
     mkWorld x (console w)).
Proof.
  intros Hf He Hlen Hcreate Hnone.
  apply (signup_not_created w Hf He Hlen eq_refl Hcreate).
  destruct Hnone as [-> | ->]; reflexivity.
Qed.

(** X14.  A signin with well-formed input that is rejected for its
    credentials logs nothing and stops where it was rejected: when the
    lookup finds no user the world is the one the lookup left
    ([verifyPassword] and [createSession] are not run), and when the
    password does not verify it is the one [verifyPassword] left
    ([createSession] is not run). *)
Theorem signin_rejection_stops_early
        (formData : FormData) (email password : string) (w : World Ext) :
  signin_fields formData email password ->
  well_formed_email email -> password <> EmptyString ->
  (forall x1,
      db_users_findFirst_where_email email (ext (delayed w))
        = (Normal None, x1) ->
      signin formData w
      = (Normal invalid_credentials, mkWorld x1 (console w))) /\
  (forall user x1 x2,
      db_users_findFirst_where_email email (ext (delayed w))
        = (Normal (Some user), x1) ->
      verifyPassword password (user_password user) x1
        = (Normal false, x2) ->
      signin formData w
      = (Normal invalid_credentials, mkWorld x2 (console w))).
Proof.
  intros Hf He Hp. split.
  - intros x1 Hnone. exact (signin_no_user w Hf He Hp Hnone).
  - intros user x1 x2 Hfound Hwrong.
    exact (signin_wrong_password w Hf He Hp Hfound Hwrong).
Qed.

(** X11.  With a [redirect] that never returns normally (as that of
    [next/navigation], which throws to signal the redirect), [signout]
    always completes by throwing what [redirect('/signin')] threw in the
    state left by the [try]: after a [deleteSession] that went through,
    with nothing logged, and after one that threw, with that exception
    logged by [console.error] and replaced by the redirect's. *)
Theorem signout_ends_in_redirect (w : World Ext) :
  (forall x a x', redirect "/signin" x <> (Normal a, x')) ->
  (forall x,
      deleteSession (ext w) = (Normal tt, x) ->
      signout w
      = (fst (redirect "/signin" x),
         mkWorld (snd (redirect "/signin" x)) (console w))) /\
  (forall e x,
      deleteSession (ext w) = (Throw e, x) ->
      signout w
      = (fst (redirect "/signin" x),
         logged (ConsoleError [CThrown e])
                (snd (redirect "/signin" x)) w)) /\
  (exists r w', signout w = (Throw r, w')).
Proof.
  intros Hnever. split; [|split].
  - intros x Hok. rewrite (signout_after_destroy w Hok).
    destruct (redirect "/signin" x) as [[a|r] x'] eqn:Hr;
      [elim (Hnever _ _ _ Hr)|reflexivity].
  - intros e x Hthrow. rewrite (signout_after_failed_destroy w Hthrow).
    destruct (redirect "/signin" x) as [[a|r] x'] eqn:Hr;
      [elim (Hnever _ _ _ Hr)|reflexivity].
  - destruct (deleteSession (ext w)) as [[[]|e] x] eqn:Hd.
    + rewrite (signout_after_destroy w Hd).
      destruct (redirect "/signin" x) as [[a|r] x'] eqn:Hr;
        [elim (Hnever _ _ _ Hr)|eauto].
    + rewrite (signout_after_failed_destroy w Hd).
      destruct (redirect "/signin" x) as [[a|r] x'] eqn:Hr;
        [elim (Hnever _ _ _ Hr)|eauto].
Qed.

(** X15.  The actions depend on the form only through the first entries
    named [email] and [password] (and, for signup, [confirmPassword]): two
    forms that agree on them give the same result in every world, whatever
    other entries they hold and in whatever order. *)
Theorem actions_read_only_their_fields (formA formB : FormData) :
  FormData_get formA "email" = FormData_get formB "email" ->
  FormData_get formA "password" = FormData_get formB "password" ->
  (forall w, signin formA w = signin formB w) /\
  (FormData_get formA "confirmPassword"
   = FormData_get formB "confirmPassword" ->
   forall w, signup formA w = signup formB w).
Proof.
  intros He Hp. split.
  - intros w. unfold signin. rewrite He, Hp. reflexivity.
  - intros Hc w. unfold signup. rewrite He, Hp, Hc. reflexivity.
Qed.

End MorePaths.

Section MoreDalProperties.
Context {Ext : Type} {P : Platform Ext}.

(** X12.  [getUserByEmail] never throws and tells three outcomes apart:
    the row the query found; [undefined], with nothing logged, when the
    query found no row; [null], only after a query that threw. *)
Theorem getUserByEmail_outcomes (email : string) (w : World Ext) :
  (forall row x,
      db_users_findFirst_where_email email (ext w) = (Normal (Some row), x) ->
      getUserByEmail email w = (Normal (Def row), mkWorld x (console w))) /\
  (forall x,
      db_users_findFirst_where_email email (ext w) = (Normal None, x) ->
      getUserByEmail email w = (Normal Undefined, mkWorld x (console w))) /\
  (forall w',
      getUserByEmail email w = (Normal Null, w') ->
      exists e x,
        db_users_findFirst_where_email email (ext w) = (Throw e, x)) /\
  (exists user w', getUserByEmail email w = (Normal user, w')).
Proof.
  unfold getUserByEmail. run.
  destruct (db_users_findFirst_where_email email (ext w))
    as [[[row|]|e] x]; simpl; repeat split;
    try (intros; discriminate);
    try (intros ? ? H; inversion H; reflexivity);
    try (intros ? H; inversion H; reflexivity);
    eauto.
Qed.

(** X13.  With a session resolved, [getCurrentUser] returns the first row
    of the query by the session's user id, whatever rows follow it, and
    [null] when the query returns no row (a session whose user is not in
    the store); in both cases nothing is logged. *)
Theorem getCurrentUser_first_row_or_null
        (w : World Ext) (session : Session) (x x' : Ext) :
  getSession (ext w) = (Some session, x) ->
  (forall row rest,
      db_select_users_where_id (userId session) x
        = (Normal (row :: rest), x') ->
      getCurrentUser w = (Normal (Def row), mkWorld x' (console w))) /\
  (db_select_users_where_id (userId session) x = (Normal [], x') ->
   getCurrentUser w = (Normal Null, mkWorld x' (console w))).
Proof.
  intros Hsession. split.
  - intros row rest Hrows.
    rewrite (getCurrentUser_first_row w Hsession Hrows). reflexivity.
  - intros Hrows.
    rewrite (getCurrentUser_first_row w Hsession Hrows). reflexivity.
Qed.

End MoreDalProperties.

(* ================================================================== *)
(** * More of the actions on the example world *)
(* ================================================================== *)

Section MoreExamples.
#[local] Existing Instance Ref.zod.
#[local] Existing Instance Ref.example_platform.

Import Ref.

Lemma signin_reports_field_errors_witness :
  signin (form "" "") example_world
  = (Normal
       (mkActionResponse false "Validation failed"
          (Some [("email", ["Email is required"; "Invalid email format"]);
                 ("password", ["Password is required"])])
          None),
     delayed example_world).
Proof.
  apply (@signin_reports_field_errors zod Store example_platform
           (form "" "") "" "" example_world).
  - split; reflexivity.
  - vm_compute. discriminate.
Defined.

Lemma signup_reports_field_errors_witness :
  signup (signup_form "not-an-email" "12345" "") example_world
  = (Normal
       (mkActionResponse false "Validation failed"
          (Some [("email", ["Invalid email format"]);
                 ("password", ["Password must be at least 6 characters"]);
                 ("confirmPassword",
                  ["Please confirm your password";
                   "Passwords don't match"])])
          None),
     delayed example_world).
Proof.
  apply (@signup_reports_field_errors zod Store example_platform
           (signup_form "not-an-email" "12345" "")
           "not-an-email" "12345" "" example_world).
  - repeat split; reflexivity.
  - vm_compute. discriminate.
Defined.

Lemma SignInSchema_accepts_iff_witness :
  Zod.safeParse SignInSchema
    [("email", JString "a@b.com"); ("password", JString "x")]
  = Zod.Success [("email", "a@b.com"); ("password", "x")].
Proof.
  apply (proj2 (@SignInSchema_accepts_iff zod (JString "a@b.com")
                  (JString "x") [("email", "a@b.com"); ("password", "x")])).
  exists "a@b.com", "x".
  repeat split; try reflexivity; discriminate.
Defined.

Lemma SignUpSchema_accepts_iff_witness :
  Zod.safeParse SignUpSchema
    [("email", JString "a@b.com"); ("password", JString "secret");
     ("confirmPassword", JString "secret")]
  = Zod.Success [("email", "a@b.com"); ("password", "secret");
                 ("confirmPassword", "secret")].
Proof.
  apply (proj2 (@SignUpSchema_accepts_iff zod (JString "a@b.com")
                  (JString "secret") (JString "secret")
                  [("email", "a@b.com"); ("password", "secret");
                   ("confirmPassword", "secret")])).
  exists "a@b.com", "secret".
  repeat split; try reflexivity; discriminate.
Defined.

Lemma signin_success_means_verified_witness :
  exists email password user x1 x2 x3,
    signin_fields (form "a@b.com" "secret1") email password /\
    well_formed_email email /\ password <> EmptyString /\
    db_users_findFirst_where_email email (ext (delayed example_world))
      = (Normal (Some user), x1) /\
    verifyPassword password (user_password user) x1 = (Normal true, x2) /\
    createSession (user_id user) x2 = (Normal tt, x3) /\
    snd (signin (form "a@b.com" "secret1") example_world)
    = mkWorld x3 (console example_world) /\
    signed_in = mkActionResponse true "Signed in successfully" None None.
Proof.
  apply (@signin_success_means_verified zod Store example_platform
           (form "a@b.com" "secret1") example_world
           (snd (signin (form "a@b.com" "secret1") example_world))
           signed_in).
  - reflexivity.
  - reflexivity.
Defined.

Lemma signup_success_means_created_witness :
  exists email password user x1 x2,
    signup_fields (signup_form "c@d.com" "secret2" "secret2")
                  email password password /\
    well_formed_email email /\ 6 <= String.length password /\
    createUser email password (ext (delayed example_world))
      = (Normal (Def user), x1) /\
    createSession (user_id user) x1 = (Normal tt, x2) /\
    snd (signup (signup_form "c@d.com" "secret2" "secret2") example_world)
    = mkWorld x2 (console example_world) /\
    account_created
    = mkActionResponse true "Account created successfully" None None.
Proof.
  apply (@signup_success_means_created zod Store example_platform
           (signup_form "c@d.com" "secret2" "secret2") example_world
           (snd (signup (signup_form "c@d.com" "secret2" "secret2")
                        example_world))
           account_created).
  - reflexivity.
  - reflexivity.
Defined.

Lemma signup_reports_failure_after_validation_witness :
  signup (signup_form "c@d.com" "secret1" "secret1")
         (world_without OpCreateUser unavailable)
  = (Normal
       (mkActionResponse false
          "An error occured while creating your account" None
          (Some "Failed to create account")),
     logged (ConsoleLog [CText "Sign up errors:"; CThrown unavailable])
            (pass 700 (with_outage OpCreateUser unavailable example_store))
            (world_without OpCreateUser unavailable)) /\
  signup (signup_form "c@d.com" "secret1" "secret1")
         (world_without OpCreateSession unavailable)
  = (Normal
       (mkActionResponse false
          "An error occured while creating your account" None
          (Some "Failed to create account")),
     logged (ConsoleLog [CText "Sign up errors:"; CThrown unavailable])
            (snd (insert_user example_hasher "c@d.com" "secret1"
                    (pass 700 (with_outage OpCreateSession unavailable
                                           example_store))))
            (world_without OpCreateSession unavailable)).
Proof.
  assert (Hf : signup_fields (signup_form "c@d.com" "secret1" "secret1")
                             "c@d.com" "secret1" "secret1")
    by (repeat split; reflexivity).
  assert (He : well_formed_email "c@d.com")
    by (split; [discriminate|reflexivity]).
  assert (Hlen : 6 <= String.length "secret1") by (simpl; lia).
  split.
  - apply (proj1 (@signup_reports_failure_after_validation zod Store
                    example_platform
                    (signup_form "c@d.com" "secret1" "secret1")
                    "c@d.com" "secret1"
                    (world_without OpCreateUser unavailable) Hf He Hlen)).
    reflexivity.
  - apply (proj2 (@signup_reports_failure_after_validation zod Store
                    example_platform
                    (signup_form "c@d.com" "secret1" "secret1")
                    "c@d.com" "secret1"
                    (world_without OpCreateSession unavailable) Hf He Hlen)
             (mkUser 3 "c@d.com" "2$secret1")
             (snd (insert_user example_hasher "c@d.com" "secret1"
                     (pass 700 (with_outage OpCreateSession unavailable
                                            example_store))))).
    + reflexivity.
    + reflexivity.
Defined.

Lemma signup_without_user_asks_to_try_again_witness :
  signup (signup_form "a@b.com" "secret1" "secret1") example_world
  = (Normal (mkActionResponse false "try again" None
               (Some "failed to create user")),
     mkWorld (pass 700 example_store) (console example_world)).
Proof.
  apply (@signup_without_user_asks_to_try_again zod Store example_platform
           (signup_form "a@b.com" "secret1" "secret1")
           "a@b.com" "secret1" example_world Null (pass 700 example_store)).
  - repeat split; reflexivity.
  - split; [discriminate|reflexivity].
  - simpl. lia.
  - reflexivity.
  - left. reflexivity.
Defined.

Lemma signin_rejection_stops_early_witness :
  signin (form "nobody@b.com" "secret1") example_world
  = (Normal invalid_credentials,
     mkWorld (pass 700 example_store) (console example_world)) /\
  signin (form "a@b.com" "wrong") example_world
  = (Normal invalid_credentials,
     mkWorld (pass 700 example_store) (console example_world)).
Proof.
  assert (HeA : well_formed_email "nobody@b.com")
    by (split; [discriminate|reflexivity]).
  assert (HpA : "secret1" <> EmptyString) by discriminate.
  assert (HeB : well_formed_email "a@b.com")
    by (split; [discriminate|reflexivity]).
  assert (HpB : "wrong" <> EmptyString) by discriminate.
  split.
  - apply (proj1 (@signin_rejection_stops_early zod Store example_platform
                    (form "nobody@b.com" "secret1") "nobody@b.com" "secret1"
                    example_world (conj eq_refl eq_refl) HeA HpA)).
    reflexivity.
  - apply (proj2 (@signin_rejection_stops_early zod Store example_platform
                    (form "a@b.com" "wrong") "a@b.com" "wrong"
                    example_world (conj eq_refl eq_refl) HeB HpB)
             alice (pass 700 example_store)).
    + reflexivity.
    + reflexivity.
Defined.

Lemma signout_ends_in_redirect_witness :
  signout alice_signed_in
  = (Throw (NextRedirect "/signin"),
     mkWorld (snd (destroy (ext alice_signed_in)))
             (console alice_signed_in)) /\
  signout (world_without OpDeleteSession unavailable)
  = (Throw (NextRedirect "/signin"),
     logged (ConsoleError [CThrown unavailable])
            (ext (world_without OpDeleteSession unavailable))
            (world_without OpDeleteSession unavailable)).
Proof.
  assert (Hnever : forall (x : Store) (a : unit) (x' : Store),
             redirect "/signin" x <> (Normal a, x'))
    by (intros x a x' H; discriminate H).
  split.
  - apply (proj1 (@signout_ends_in_redirect Store example_platform
                    alice_signed_in Hnever)
             (snd (destroy (ext alice_signed_in)))).
    reflexivity.
  - apply (proj1 (proj2 (@signout_ends_in_redirect Store example_platform
                           (world_without OpDeleteSession unavailable)
                           Hnever))
             unavailable
             (ext (world_without OpDeleteSession unavailable))).
    reflexivity.
Defined.

Lemma getUserByEmail_outcomes_witness :
  getUserByEmail "a@b.com" example_world = (Normal (Def alice), example_world)
  /\
  getUserByEmail "nobody@b.com" example_world
  = (Normal Undefined, example_world).
Proof.
  split.
  - apply (proj1 (@getUserByEmail_outcomes Store example_platform
                    "a@b.com" example_world) alice example_store).
    reflexivity.
  - apply (proj1 (proj2 (@getUserByEmail_outcomes Store example_platform
                           "nobody@b.com" example_world)) example_store).
    reflexivity.
Defined.

Lemma getCurrentUser_first_row_or_null_witness :
  getCurrentUser alice_signed_in = (Normal (Def alice), alice_signed_in) /\
  getCurrentUser (mkWorld (snd (create 99 example_store)) [])
  = (Normal Null, mkWorld (snd (create 99 example_store)) []).
Proof.
  split.
  - apply (proj1 (@getCurrentUser_first_row_or_null Store example_platform
                    alice_signed_in (mkSession 1)
                    (ext alice_signed_in) (ext alice_signed_in) eq_refl)
             alice []).
    reflexivity.
  - apply (proj2 (@getCurrentUser_first_row_or_null Store example_platform
                    (mkWorld (snd (create 99 example_store)) [])
                    (mkSession 99)
                    (snd (create 99 example_store))
                    (snd (create 99 example_store)) eq_refl)).
    reflexivity.
Defined.

Lemma actions_read_only_their_fields_witness :
  (forall w,
      signin [("remember", FormString "on"); ("password", FormString "pw");
              ("email", FormString "a@b.com");
              ("email", FormString "other@b.com")] w
      = signin (form "a@b.com" "pw") w) /\
  (forall w,
      signup [("confirmPassword", FormString "pw");
              ("password", FormString "pw");
              ("email", FormString "a@b.com");
              ("avatar", FormFile "me.png")] w
      = signup (signup_form "a@b.com" "pw" "pw") w).
Proof.
  split.
  - apply (proj1 (@actions_read_only_their_fields zod Store example_platform
                    [("remember", FormString "on");
                     ("password", FormString "pw");
                     ("email", FormString "a@b.com");
                     ("email", FormString "other@b.com")]
                    (form "a@b.com" "pw") eq_refl eq_refl)).
  - apply (proj2 (@actions_read_only_their_fields zod Store example_platform
                    [("confirmPassword", FormString "pw");
                     ("password", FormString "pw");
                     ("email", FormString "a@b.com");
                     ("avatar", FormFile "me.png")]
                    (signup_form "a@b.com" "pw" "pw") eq_refl eq_refl)).
    reflexivity.
Defined.

End MoreExamples.
